(** * kmsgrab: a KMS/DRM screenshot tool

    A shallow embedding of [kmsgrab.c] and the properties of its pixel
    converter, its buffer exporter/mapper ([save_png]) and its driver
    ([main]).

    Conventions.
    - C integers are [Z]; a conversion to a [w]-bit unsigned type is written
      out as a reduction modulo [2^w] ([u8], [u32]).
    - A mapped region is a [list byte]; a typed read through a [uint16_t *]
      or [uint32_t *] assembles the bytes in host order.
    - System and libdrm calls are answered by a [world], a script of the
      results the kernel gives; every call the program makes is logged as an
      [event], and the descriptor table of the process is threaded through. *)

From Stdlib Require Import ZArith List Bool Lia String Ascii.
From Stdlib Require Import Strings.Byte.
From Stdlib Require Import DecimalString DecimalPos.
Import ListNotations.
Local Open Scope Z_scope.

(** ** Fixed-width integers *)

Definition u8 (z : Z) : Z := z mod 2 ^ 8.
Definition u32 (z : Z) : Z := z mod 2 ^ 32.

(** ** Pixel converter (lines 23-64) *)

Module Pixel.

(** [typedef struct { uint8_t r, g, b; } uint24_t;] *)
Record uint24_t : Type := mk_uint24 { r : Z; g : Z; b : Z }.

(** Lines 27-36.  [px] is a [uint16_t]; the masks and shifts are done on its
    promotion to [int] and each result is stored into a [uint8_t]. *)
Definition rgb16_to_24 (px : Z) : uint24_t :=
  {| b := u8 (Z.shiftl (Z.land px 0x1f) 3);
     g := u8 (Z.shiftr (Z.land px 0x7e0) 3);
     r := u8 (Z.shiftr (Z.land px 0xf800) 8) |}.

(** Lines 39-48.  [px] is a [uint32_t]. *)
Definition rgb32_to_24 (px : Z) : uint24_t :=
  {| b := u8 (Z.land px 0xff);
     g := u8 (Z.land (Z.shiftr px 8) 0xff);
     r := u8 (Z.land (Z.shiftr px 16) 0xff) |}.

(** The fields of libdrm's [drmModeFB] that [convert_to_24] reads, all
    [uint32_t]. *)
Record drmModeFB : Type := mk_fb { width : Z; height : Z; bpp : Z }.

Definition byte_val (x : byte) : Z := Z.of_N (Byte.to_N x).

(** Assemble the bytes of one object, least significant first. *)
Fixpoint le_value (bs : list byte) : Z :=
  match bs with
  | [] => 0
  | x :: bs' => byte_val x + 2 ^ 8 * le_value bs'
  end.

Section HostOrder.

(** Byte order of the host. *)
Variable big_endian : bool.

Definition host_value (bs : list byte) : Z :=
  le_value (if big_endian then rev bs else bs).

(** [ptr[i]] for a pointer to objects of [n] bytes into the region [from];
    [None] when the object is not wholly inside the region. *)
Definition load (n : nat) (from : list byte) (i : nat) : option Z :=
  let bs := firstn n (skipn (i * n) from) in
  if Nat.eqb (List.length bs) n then Some (host_value bs) else None.

(** The copy loops of lines 57-58 and 61-62: [len] pixels are read through
    [ptr], converted and stored through [to]; [i] is the offset of [ptr]. *)
Fixpoint convert_loop (rd : nat -> option Z) (conv : Z -> uint24_t)
    (len i : nat) : option (list uint24_t) :=
  match len with
  | O => Some []
  | S len' =>
      match rd i with
      | None => None
      | Some px =>
          match convert_loop rd conv len' (S i) with
          | None => None
          | Some out => Some (conv px :: out)
          end
      end
  end.

(** Line 53: [unsigned int len = fb->width * fb->height;] *)
Definition pixel_count (fb : drmModeFB) : Z := u32 (width fb * height fb).

(** Lines 51-64.  The result is what is stored through [to]; [None] is a
    read outside the region. *)
Definition convert_to_24 (fb : drmModeFB) (from : list byte)
    : option (list uint24_t) :=
  let len := Z.to_nat (pixel_count fb) in
  if bpp fb =? 16
  then convert_loop (load 2 from) rgb16_to_24 len 0
  else convert_loop (load 4 from) rgb32_to_24 len 0.

End HostOrder.

End Pixel.

(** ** The process and its kernel *)

Module Sys.

(** What a descriptor of the process refers to. *)
Inductive file : Type :=
| Tty
| Node (path : string)
| Regular (name : string)
| DmaBuf (handle : Z).

(** The descriptor table: descriptor number and open file. *)
Definition fdtable : Type := list (Z * file).

Definition is_open (fd : Z) (t : fdtable) : bool :=
  existsb (fun e => fst e =? fd) t.

(** A new descriptor gets the lowest number not in use. *)
Fixpoint lowest_free_from (fuel : nat) (fd : Z) (t : fdtable) : Z :=
  match fuel with
  | O => fd
  | S fuel' => if is_open fd t then lowest_free_from fuel' (fd + 1) t else fd
  end.

Definition lowest_free (t : fdtable) : Z :=
  lowest_free_from (List.length t) 0 t.

Fixpoint remove_fd (fd : Z) (t : fdtable) : fdtable :=
  match t with
  | [] => []
  | (k, f) :: t' => if k =? fd then t' else (k, f) :: remove_fd fd t'
  end.

(** The table a process starts with. *)
Definition stdio : fdtable := [(2, Tty); (1, Tty); (0, Tty)].

(** The descriptors of [t] that refer to device nodes. *)
Definition open_nodes (t : fdtable) : list (Z * string) :=
  flat_map (fun e => match snd e with
                     | Node path => [(fst e, path)]
                     | _ => []
                     end) t.

(** Calls across the process boundary, with the results they returned. *)
Inductive event : Type :=
| Printf (text : string)
| Stderr (text : string)
| Open (path : string) (ret : Z)
| Close (fd : Z)
| GetCap (fd capability ret : Z)
| SetClientCap (fd capability ret : Z)
| GetPlaneResources (fd : Z) (ok : bool)
| GetPlane (fd plane_id : Z) (ok : bool)
| FreePlane
| GetFB2 (fd fb_id : Z) (ok : bool)
| Fopen (name : string) (ok : bool)
| PrimeHandleToFD (fd handle ret : Z)
| Mmap (size fd : Z) (ok : bool)
| Fwrite (size items : Z)
| Munmap (size : Z)
| Fclose (name : string)
| FreeFB (ptr : Z)
| FreePlaneResources.

(** Computations of the process: they read and update the descriptor table
    and log their calls in order. *)
Definition M (A : Type) : Type := fdtable -> A * fdtable * list event.

Definition ret {A : Type} (a : A) : M A := fun t => (a, t, []).

Definition bind {A B : Type} (c : M A) (k : A -> M B) : M B :=
  fun t =>
    let '(a, t1, l1) := c t in
    let '(b, t2, l2) := k a t1 in
    (b, t2, l1 ++ l2).

Definition emit (e : event) : M unit := fun t => (tt, t, [e]).

Definition value {A : Type} (x : A * fdtable * list event) : A := fst (fst x).
Definition table {A : Type} (x : A * fdtable * list event) : fdtable :=
  snd (fst x).
Definition calls {A : Type} (x : A * fdtable * list event) : list event :=
  snd x.

End Sys.

Import Sys.

Declare Scope prog_scope.
Delimit Scope prog_scope with prog.
Notation "x <- c ;; k" := (bind c (fun x => k))
  (at level 61, c at next level, right associativity) : prog_scope.
Notation "c ;; k" := (bind c (fun _ => k))
  (at level 61, right associativity) : prog_scope.
Local Open Scope prog_scope.

(** [%u] of a 32-bit argument: the decimal digits of its value as an
    [unsigned int], so an [int] that is negative prints as that value plus
    [2^32]. *)
Definition decimal (z : Z) : string :=
  NilEmpty.string_of_uint (N.to_uint (Z.to_N (u32 z))).

(** ** The answers of the system *)

(** A fixed array of four elements, as [handles[4]] and [pitches[4]]. *)
Record arr4 (A : Type) : Type := mk4 { a0 : A; a1 : A; a2 : A; a3 : A }.
Arguments mk4 {A} _ _ _ _.
Arguments a0 {A} _.
Arguments a1 {A} _.
Arguments a2 {A} _.
Arguments a3 {A} _.

Definition get4 {A : Type} (a : arr4 A) (p : Z) : A :=
  if p =? 0 then a0 a else if p =? 1 then a1 a else if p =? 2 then a2 a
  else a3 a.

(** The fields of libdrm's [drmModeFB2] that the program reads, all
    [uint32_t]. *)
Record drmModeFB2 : Type := mk_fb2 {
  height : Z;
  pitches : arr4 Z;
  handles : arr4 Z
}.

(** One device node [/dev/dri/cardN]: whether [open] succeeds on it, and what
    [drmGetCap(DRM_CAP_DUMB_BUFFER)] returns and stores. *)
Record card_env : Type := mk_card {
  openable : bool;
  cap_ret : Z;
  has_dumb : Z
}.

(** One memory plane: the return value of [drmPrimeHandleToFD] (negative on
    failure), the [errno] of a failed [mmap] ([None]: the mapping succeeds),
    and the item count [fwrite] returns. *)
Record mem_env : Type := mk_mem {
  export_ret : Z;
  map_errno : option positive;
  write_items : Z
}.

(** One display plane: what [drmModeGetPlane] returns ([None] is [NULL],
    else the pair [fb_id], [crtc_id]), what [drmModeGetFB2] returns, the
    [errno] of a failed [fopen], the indeterminate value the automatic
    variable [ret] of [save_png] starts with, and the four memory planes. *)
Record plane_env : Type := mk_plane {
  plane_id : Z;
  plane_state : option (Z * Z);
  fb2_result : option drmModeFB2;
  fopen_errno : option positive;
  ret_indeterminate : Z;
  mem : arr4 mem_env
}.

(** A run: the command line, the device nodes in index order (an index past
    the list has no node), whether the second [open] of the chosen node
    succeeds, the return values of the two [drmSetClientCap] calls, the
    planes [drmModeGetPlaneResources] lists ([None] is [NULL]), and the
    indeterminate values of [main]'s [prime_fd] and [fb]. *)
Record world : Type := mk_world {
  argc : Z;
  argv1 : string;
  cards : list card_env;
  reopen_ok : bool;
  atomic_ret : Z;
  universal_ret : Z;
  plane_resources : option (list plane_env);
  prime_fd_indeterminate : Z;
  fb_indeterminate : Z
}.

(** ** System and library calls *)

Definition sys_open (path : string) (ok : bool) : M Z :=
  fun t =>
    if ok
    then let fd := lowest_free t in (fd, (fd, Node path) :: t, [Open path fd])
    else (-1, t, [Open path (-1)]).

Definition sys_close (fd : Z) : M unit :=
  fun t => (tt, remove_fd fd t, [Close fd]).

(** [fopen(name, "w+")]: the stream holds one descriptor; [inr errno] is
    [NULL] with [errno] set. *)
Definition sys_fopen (name : string) (err : option positive)
    : M (Z + positive) :=
  fun t =>
    match err with
    | Some errno => (inr errno, t, [Fopen name false])
    | None =>
        let fd := lowest_free t in
        (inl fd, (fd, Regular name) :: t, [Fopen name true])
    end.

Definition sys_fclose (name : string) (stream : Z) : M unit :=
  fun t => (tt, remove_fd stream t, [Fclose name]).

(** [drmPrimeHandleToFD(drm_fd, handle, O_RDONLY, &prime_fd)]: the return
    value and the content of [prime_fd] afterwards ([old] when the call
    fails). *)
Definition drmPrimeHandleToFD (drm_fd handle : Z) (e : mem_env) (old : Z)
    : M (Z * Z) :=
  fun t =>
    if export_ret e <? 0
    then ((export_ret e, old), t, [PrimeHandleToFD drm_fd handle (export_ret e)])
    else
      let fd := lowest_free t in
      ((export_ret e, fd), (fd, DmaBuf handle) :: t,
       [PrimeHandleToFD drm_fd handle (export_ret e)]).

(** [mmap(NULL, size, PROT_READ, MAP_PRIVATE, prime_fd, 0)]: [Some errno] is
    [MAP_FAILED]. *)
Definition sys_mmap (size prime_fd : Z) (e : mem_env) : M (option positive) :=
  match map_errno e with
  | Some n => emit (Mmap size prime_fd false) ;; ret (Some n)
  | None => emit (Mmap size prime_fd true) ;; ret None
  end.

(** ** Buffer exporter/mapper: [save_png] (lines 66-111) *)

(** Line 96: [size = fb2->pitches[p] * fb2->height / (!p ? 1 : 2);] in
    [unsigned int]. *)
Definition map_size (fb2 : drmModeFB2) (p : Z) : Z :=
  u32 (get4 (pitches fb2) p * height fb2) / (if p =? 0 then 1 else 2).

(** The body of the loop of lines 86-108 for memory plane [p].  [st] is the
    pair of the automatic variables [ret] and [prime_fd] as the iteration
    finds them; the result is the pair as it leaves them. *)
Definition mem_plane (fb2 : drmModeFB2) (drm_fd : Z) (e : mem_env) (p : Z)
    (st : Z * Z) : M (Z * Z) :=
  let '(ret0, prime_fd0) := st in
  if get4 (handles fb2) p =? 0 then ret (ret0, prime_fd0)
  else
    x <- drmPrimeHandleToFD drm_fd (get4 (handles fb2) p) e prime_fd0 ;;
    let '(err, prime_fd) := x in
    if err <? 0 then ret (ret0, prime_fd)
    else
      let size := map_size fb2 p in
      buffer <- sys_mmap size prime_fd e ;;
      ret1 <- match buffer with
              | Some errno =>
                  emit (Stderr ("Unable to mmap prime buffer plane "
                                  ++ decimal p)) ;;
                  ret (- Z.pos errno)
              | None =>
                  emit (Fwrite size (write_items e)) ;;
                  emit (Munmap size) ;;
                  ret ret0
              end ;;
      sys_close prime_fd ;;
      ret (ret1, prime_fd).

(** [for (p = 0; p < 4; p++)], over the values [ps] that [p] still takes. *)
Fixpoint mem_planes (fb2 : drmModeFB2) (drm_fd : Z) (pe : plane_env)
    (ps : list Z) (st : Z * Z) : M (Z * Z) :=
  match ps with
  | [] => ret st
  | p :: ps' =>
      st' <- mem_plane fb2 drm_fd (get4 (mem pe) p) p st ;;
      mem_planes fb2 drm_fd pe ps' st'
  end.

(** Line 77: [sprintf(filename, "%s-%u.raw", png_fn, plane);] *)
Definition output_name (png_fn : string) (plane : Z) : string :=
  (png_fn ++ "-" ++ decimal plane ++ ".raw")%string.

(** Line 75: [char filename[64];] *)
Definition filename_size : nat := 64.

(** The name that line 77 prints and its terminating null byte fit into
    [filename]. *)
Definition fits_filename (png_fn : string) (plane : Z) : bool :=
  Nat.ltb (String.length (output_name png_fn plane)) filename_size.

(** Lines 66-111.  [None] is a [sprintf] that writes past the end of
    [filename]: the run is not followed beyond it.  The automatic variable
    [prime_fd] is only read after [drmPrimeHandleToFD] has stored into it,
    so its first value is taken as [0]; [ret] is read at line 110 whether
    or not it was assigned.  Of the message of lines 80-81 the text after
    the colon, [strerror] of the never-assigned [err], is left out. *)
Definition save_png (fb2 : drmModeFB2) (drm_fd : Z) (png_fn : string)
    (plane : Z) (pe : plane_env) : M (option Z) :=
  let filename := output_name png_fn plane in
  if negb (fits_filename png_fn plane) then ret None
  else
    pngfile <- sys_fopen filename (fopen_errno pe) ;;
    match pngfile with
    | inr errno =>
        emit (Stderr "Failed to open output file") ;;
        ret (Some (- Z.pos errno))
    | inl stream =>
        st <- mem_planes fb2 drm_fd pe [0; 1; 2; 3]
                (ret_indeterminate pe, 0) ;;
        sys_fclose filename stream ;;
        ret (Some (fst st))
    end.

(** ** The driver: [main] (lines 113-205) *)

Definition EXIT_SUCCESS : Z := 0.
Definition EXIT_FAILURE : Z := 1.

(** From [drm.h]. *)
Definition DRM_CAP_DUMB_BUFFER : Z := 1.
Definition DRM_CLIENT_CAP_UNIVERSAL_PLANES : Z := 2.
Definition DRM_CLIENT_CAP_ATOMIC : Z := 3.

(** The labels at the end of [main]; control falls from each into the
    next. *)
Inductive label : Type :=
| out_close_prime_fd
| out_free_fb
| out_free_resources
| out_close_fd
| out_return.

Definition depth (l : label) : nat :=
  match l with
  | out_close_prime_fd => 0
  | out_free_fb => 1
  | out_free_resources => 2
  | out_close_fd => 3
  | out_return => 4
  end.

Definition when (c : bool) (m : M unit) : M unit := if c then m else ret tt.

(** Lines 195-203, entered at [l].  Neither [prime_fd] nor [fb] of [main]
    is ever assigned.  [close(prime_fd)] closes whatever descriptor the
    number found there names, or none.  [drmModeFreeFB] of libdrm returns
    at once for a null pointer and hands any other to [free]; a pointer
    found in [fb] that is not null was not returned by [malloc], and the
    run is not followed beyond that [free]: the result is [false]. *)
Definition unwind (w : world) (drm_fd : Z) (l : label) : M bool :=
  when (Nat.leb (depth l) 0) (sys_close (prime_fd_indeterminate w)) ;;
  if Nat.leb (depth l) 1 && negb (fb_indeterminate w =? 0)
  then emit (FreeFB (fb_indeterminate w)) ;; ret false
  else
    when (Nat.leb (depth l) 1) (emit (FreeFB (fb_indeterminate w))) ;;
    when (Nat.leb (depth l) 2) (emit FreePlaneResources) ;;
    when (Nat.leb (depth l) 3) (sys_close drm_fd) ;;
    ret true.

(** Line 131: [snprintf(buf, sizeof(buf), "/dev/dri/card%u", card);] *)
Definition card_path (card : Z) : string :=
  ("/dev/dri/card" ++ decimal card)%string.

Definition open_failed : event := Stderr "Could not open KMS/DRM device.".

(** The loop of lines 130-144 with [card] its counter and [cs] the nodes
    from index [card] on.  [Some (drm_fd, buf)] is the [break] of line 141
    with the values of [drm_fd] and [buf]; [None] is the [goto out_return] of
    line 136. *)
Fixpoint probe (cs : list card_env) (card : Z) : M (option (Z * string)) :=
  let buf := card_path card in
  match cs with
  | [] => sys_open buf false ;; emit open_failed ;; ret None
  | c :: cs' =>
      drm_fd <- sys_open buf (openable c) ;;
      if drm_fd <? 0 then emit open_failed ;; ret None
      else
        emit (GetCap drm_fd DRM_CAP_DUMB_BUFFER (cap_ret c)) ;;
        if (cap_ret c >=? 0) && negb (has_dumb c =? 0)
        then ret (Some (drm_fd, buf))
        else sys_close drm_fd ;; probe cs' (u32 (card + 1))
  end.

(** Device locator, lines 130-150: the probe loop and the second [open].
    [Some drm_fd] is the descriptor the rest of [main] uses. *)
Definition locate (w : world) : M (option Z) :=
  found <- probe (cards w) 0 ;;
  match found with
  | None => ret None
  | Some (_, buf) =>
      drm_fd <- sys_open buf (reopen_ok w) ;;
      if drm_fd <? 0 then emit open_failed ;; ret None
      else ret (Some drm_fd)
  end.

(** How the loop of lines 168-191 is left. *)
Inductive loop_exit : Type :=
| Done
| Goto (l : label)
| NullDereference
| FilenameOverrun.

(** The loop of lines 168-191 with [i] its counter and [pls] the planes from
    index [i] on. *)
Fixpoint enumerate (drm_fd : Z) (png_fn : string) (pls : list plane_env)
    (i : Z) : M loop_exit :=
  match pls with
  | [] => ret Done
  | pe :: pls' =>
      match plane_state pe with
      | None =>
          (* line 170 reads [plane->fb_id] through the [NULL] that
             [drmModeGetPlane] returned *)
          emit (GetPlane drm_fd (plane_id pe) false) ;;
          ret NullDereference
      | Some (fb_id, crtc_id) =>
          emit (GetPlane drm_fd (plane_id pe) true) ;;
          emit FreePlane ;;
          if (fb_id =? 0) || (crtc_id =? 0)
          then enumerate drm_fd png_fn pls' (u32 (i + 1))
          else
            match fb2_result pe with
            | None =>
                emit (GetFB2 drm_fd fb_id false) ;;
                emit (Stderr ("Failed to get framebuffer " ++ decimal fb_id)) ;;
                ret (Goto out_free_resources)
            | Some fb2 =>
                emit (GetFB2 drm_fd fb_id true) ;;
                saved <- save_png fb2 drm_fd png_fn i pe ;;
                match saved with
                | None => ret FilenameOverrun
                | Some err =>
                    if err <? 0
                    then emit (Stderr "Failed to take screenshot") ;;
                         ret (Goto out_close_prime_fd)
                    else enumerate drm_fd png_fn pls' (u32 (i + 1))
                end
            end
      end
  end.

(** How the process ends: it returns [status] from [main], or it comes to
    the dereference of a null pointer, a write past the end of an array or
    the [free] of a pointer that was never allocated, beyond which it is not
    followed. *)
Inductive outcome : Type :=
| Exit (status : Z)
| Fault.

(** [return retval;] after the labels from [l] on, when they are passed. *)
Definition leave (w : world) (drm_fd : Z) (l : label) (retval : Z)
    : M outcome :=
  passed <- unwind w drm_fd l ;;
  ret (if passed then Exit retval else Fault).

(** Lines 152-204, after the device has been located. *)
Definition capture (w : world) (drm_fd : Z) : M outcome :=
  emit (SetClientCap drm_fd DRM_CLIENT_CAP_ATOMIC (atomic_ret w)) ;;
  if negb (atomic_ret w =? 0)
  then emit (Stderr "Unable to set atomic cap.") ;;
       leave w drm_fd out_close_fd EXIT_FAILURE
  else
    emit (SetClientCap drm_fd DRM_CLIENT_CAP_UNIVERSAL_PLANES
            (universal_ret w)) ;;
    if negb (universal_ret w =? 0)
    then emit (Stderr "Unable to set universal planes cap.") ;;
         leave w drm_fd out_close_fd EXIT_FAILURE
    else
      match plane_resources w with
      | None =>
          emit (GetPlaneResources drm_fd false) ;;
          emit (Stderr "Unable to get plane resources.") ;;
          leave w drm_fd out_close_fd EXIT_FAILURE
      | Some pls =>
          emit (GetPlaneResources drm_fd true) ;;
          how <- enumerate drm_fd (argv1 w) pls 0 ;;
          match how with
          | Done => leave w drm_fd out_close_prime_fd EXIT_SUCCESS
          | Goto l => leave w drm_fd l EXIT_FAILURE
          | NullDereference | FilenameOverrun => ret Fault
          end
      end.

(** Lines 113-205. *)
Definition main (w : world) : M outcome :=
  if argc w <? 2
  then emit (Printf "Usage: kmsgrab <output.png>") ;; ret (Exit EXIT_FAILURE)
  else
    found <- locate w ;;
    match found with
    | None => ret (Exit EXIT_FAILURE)
    | Some drm_fd => capture w drm_fd
    end.

(** A run from the table a process starts with. *)
Definition run (w : world) : outcome * fdtable * list event := main w stdio.

(** ** Vocabulary of the properties *)

(** Bits [lo] to [hi] of [px], left in place, every other bit cleared. *)
Definition bits (lo hi : Z) (px : Z) : Z :=
  Z.land px (Z.shiftl (Z.ones (hi - lo + 1)) lo).

(** A 16-bit pixel packed again from 8-bit channels, each cut back to its
    5, 6 and 5 bits. *)
Definition requantize (c : Pixel.uint24_t) : Z :=
  Z.lor (Z.shiftl (Z.shiftr (Pixel.r c) 3) 11)
    (Z.lor (Z.shiftl (Z.shiftr (Pixel.g c) 2) 5) (Z.shiftr (Pixel.b c) 3)).

(** [P] holds of every number whose binary digits are those of [hi]
    followed by [n] more. *)
Fixpoint all_bits (n : nat) (hi : Z) (P : Z -> bool) : bool :=
  match n with
  | O => P hi
  | S n' => all_bits n' (2 * hi) P && all_bits n' (2 * hi + 1) P
  end.

Definition channel_eqb (c d : Pixel.uint24_t) : bool :=
  (Pixel.r c =? Pixel.r d) && (Pixel.g c =? Pixel.g d)
  && (Pixel.b c =? Pixel.b d).

(** Everything the 16-bit conversion promises of one pixel, as a test. *)
Definition rgb16_test (px : Z) : bool :=
  let c := Pixel.rgb16_to_24 px in
  (Pixel.b c =? Z.shiftl (bits 0 4 px) 3)
  && (Pixel.g c =? Z.shiftr (bits 5 10 px) 3)
  && (Pixel.r c =? Z.shiftr (bits 11 15 px) 8)
  && (Z.land (Pixel.b c) 7 =? 0)
  && (Z.land (Pixel.g c) 3 =? 0)
  && (Z.land (Pixel.r c) 7 =? 0)
  && (Z.shiftl (Z.shiftr (Pixel.b c) 3) 3 =? Pixel.b c)
  && (Z.shiftl (Z.shiftr (Pixel.g c) 2) 2 =? Pixel.g c)
  && (Z.shiftl (Z.shiftr (Pixel.r c) 3) 3 =? Pixel.r c)
  && (requantize c =? px)
  && channel_eqb (Pixel.rgb16_to_24 (requantize c)) c.

(** Memory plane [p] of [fb2] is exported and its mapping fails. *)
Definition map_fails_at (fb2 : drmModeFB2) (pe : plane_env) (p : Z) : bool :=
  negb (get4 (handles fb2) p =? 0)
  && (0 <=? export_ret (get4 (mem pe) p))
  && match map_errno (get4 (mem pe) p) with Some _ => true | None => false end.

Definition map_fails (fb2 : drmModeFB2) (pe : plane_env) : bool :=
  existsb (map_fails_at fb2 pe) [0; 1; 2; 3].

(** The value the loop of [save_png] leaves in [ret] when it starts from
    [ret0] and [p] runs over [ps]: the negated [errno] of the last mapping
    that failed, or [ret0] when none did. *)
Fixpoint ret_after (fb2 : drmModeFB2) (pe : plane_env) (ps : list Z)
    (ret0 : Z) : Z :=
  match ps with
  | [] => ret0
  | p :: ps' =>
      ret_after fb2 pe ps'
        (if map_fails_at fb2 pe p
         then match map_errno (get4 (mem pe) p) with
              | Some errno => - Z.pos errno
              | None => ret0
              end
         else ret0)
  end.

(** The value [save_png] returns when the name of the file fits. *)
Definition save_png_result (fb2 : drmModeFB2) (pe : plane_env) : Z :=
  match fopen_errno pe with
  | Some errno => - Z.pos errno
  | None => ret_after fb2 pe [0; 1; 2; 3] (ret_indeterminate pe)
  end.

(** The same plane with other item counts returned by [fwrite]. *)
Definition with_write_items (f : Z -> Z) (pe : plane_env) : plane_env :=
  let set (p : Z) :=
    {| export_ret := export_ret (get4 (mem pe) p);
       map_errno := map_errno (get4 (mem pe) p);
       write_items := f p |} in
  {| plane_id := plane_id pe;
     plane_state := plane_state pe;
     fb2_result := fb2_result pe;
     fopen_errno := fopen_errno pe;
     ret_indeterminate := ret_indeterminate pe;
     mem := mk4 (set 0) (set 1) (set 2) (set 3) |}.

(** Kinds of calls. *)
Definition is_export (e : event) : bool :=
  match e with PrimeHandleToFD _ _ _ => true | _ => false end.
Definition is_mmap (e : event) : bool :=
  match e with Mmap _ _ _ => true | _ => false end.
Definition is_fwrite (e : event) : bool :=
  match e with Fwrite _ _ => true | _ => false end.
Definition is_fopen (e : event) : bool :=
  match e with Fopen _ _ => true | _ => false end.
Definition is_getfb2 (e : event) : bool :=
  match e with GetFB2 _ _ _ => true | _ => false end.

Definition is_close (e : event) : bool :=
  match e with Close _ => true | _ => false end.

(** The calls that enumerate planes and resolve buffers. *)
Definition is_enumeration (e : event) : bool :=
  match e with
  | GetPlaneResources _ _ | GetPlane _ _ _ | GetFB2 _ _ _ => true
  | _ => false
  end.

(** The calls [save_png] makes. *)
Definition is_save_call (e : event) : bool :=
  match e with
  | Fopen _ _ | PrimeHandleToFD _ _ _ | Mmap _ _ _ | Fwrite _ _ | Munmap _
  | Close _ | Fclose _ | Stderr _ => true
  | _ => false
  end.

(** The memory planes of [fb2] that are present. *)
Definition present (fb2 : drmModeFB2) : list Z :=
  filter (fun p => negb (get4 (handles fb2) p =? 0)) [0; 1; 2; 3].


(** A call that queries the state of a display plane. *)
Definition is_plane_query (e : event) : bool :=
  match e with GetPlane _ _ _ => true | _ => false end.

(** A call with the item count returned by [fwrite] left out. *)
Definition forget_items (e : event) : event :=
  match e with
  | Fwrite size _ => Fwrite size 0
  | _ => e
  end.

(** The calls of the probe loop for the nodes it rejects: each node is
    opened, asked for its capability and closed, one after the other. *)
Fixpoint probe_rejects (l : list event) : bool :=
  match l with
  | [] => true
  | Open _ fd :: GetCap fd' _ _ :: Close fd'' :: l' =>
      (fd =? fd') && (fd =? fd'') && probe_rejects l'
  | _ => false
  end.

(** ** What the answers of the system decide *)

(** The planes [drmModeGetPlaneResources] lists; none when it fails. *)
Definition listed_planes (w : world) : list plane_env :=
  match plane_resources w with
  | Some pls => pls
  | None => []
  end.

(** The test of lines 139-140: the node is accepted. *)
Definition capable (c : card_env) : bool :=
  (cap_ret c >=? 0) && negb (has_dumb c =? 0).

(** The probe loop comes to a node it accepts: that node and every node
    before it can be opened. *)
Fixpoint probe_finds (cs : list card_env) : bool :=
  match cs with
  | [] => false
  | c :: cs' => openable c && (capable c || probe_finds cs')
  end.

Definition device_opened (w : world) : bool :=
  probe_finds (cards w) && reopen_ok w.

Definition caps_enabled (w : world) : bool :=
  (atomic_ret w =? 0) && (universal_ret w =? 0).

(** How the body of the loop of lines 168-191 ends for the plane with
    index [i], read off the answers of the system; [None] when the loop
    goes on. *)
Definition plane_verdict (png_fn : string) (i : Z) (pe : plane_env)
    : option loop_exit :=
  match plane_state pe with
  | None => Some NullDereference
  | Some (fb_id, crtc_id) =>
      if (fb_id =? 0) || (crtc_id =? 0) then None
      else
        match fb2_result pe with
        | None => Some (Goto out_free_resources)
        | Some fb2 =>
            if negb (fits_filename png_fn i) then Some FilenameOverrun
            else if save_png_result fb2 pe <? 0
            then Some (Goto out_close_prime_fd)
            else None
        end
  end.

(** How the loop is left: at the first plane whose body leaves it. *)
Fixpoint loop_verdict (png_fn : string) (i : Z) (pls : list plane_env)
    : loop_exit :=
  match pls with
  | [] => Done
  | pe :: pls' =>
      match plane_verdict png_fn i pe with
      | Some how => how
      | None => loop_verdict png_fn (u32 (i + 1)) pls'
      end
  end.

(** The outcome of leaving through the labels from [l] on with [retval]. *)
Definition leave_status (w : world) (l : label) (retval : Z) : outcome :=
  if Nat.leb (depth l) 1 && negb (fb_indeterminate w =? 0) then Fault
  else Exit retval.

(** The outcome of [main] after the device has been located. *)
Definition capture_status (w : world) : outcome :=
  if negb (atomic_ret w =? 0) then Exit EXIT_FAILURE
  else if negb (universal_ret w =? 0) then Exit EXIT_FAILURE
  else
    match plane_resources w with
    | None => Exit EXIT_FAILURE
    | Some pls =>
        match loop_verdict (argv1 w) 0 pls with
        | Done => leave_status w out_close_prime_fd EXIT_SUCCESS
        | Goto l => leave_status w l EXIT_FAILURE
        | NullDereference | FilenameOverrun => Fault
        end
    end.

(** The outcome of [main]. *)
Definition main_status (w : world) : outcome :=
  if argc w <? 2 then Exit EXIT_FAILURE
  else if device_opened w then capture_status w
  else Exit EXIT_FAILURE.






(** ** Runs used as examples *)

Module Scenario.

(** A buffer of two rows of 8 bytes in one memory plane, with handle 7. *)
Definition fb2_single : drmModeFB2 :=
  mk_fb2 2 (mk4 8 0 0 0) (mk4 7 0 0 0).

(** A buffer with memory planes 0 and 2; planes 1 and 3 are absent. *)
Definition fb2_sparse : drmModeFB2 :=
  mk_fb2 2 (mk4 8 8 4 4) (mk4 7 0 9 0).

Definition mem_ok : mem_env := mk_mem 0 None 1.
Definition mem_map_fails : mem_env := mk_mem 0 (Some 12%positive) 1.
Definition mem_write_fails : mem_env := mk_mem 0 None 0.
Definition mem_export_fails : mem_env := mk_mem (-1) None 1.

Definition all_ok : arr4 mem_env := mk4 mem_ok mem_ok mem_ok mem_ok.

(** A buffer none of whose memory planes is present. *)
Definition fb2_empty : drmModeFB2 :=
  mk_fb2 2 (mk4 8 0 0 0) (mk4 0 0 0 0).

(** An active plane with that buffer. *)
Definition plane_empty (id : Z) : plane_env :=
  mk_plane id (Some (5, 6)) (Some fb2_empty) None 0 all_ok.

(** An active plane whose buffer is saved. *)
Definition plane_ok (id : Z) : plane_env :=
  mk_plane id (Some (5, 6)) (Some fb2_single) None 0 all_ok.

(** A plane that is bound to no buffer. *)
Definition plane_inactive (id : Z) : plane_env :=
  mk_plane id (Some (0, 6)) (Some fb2_single) None 0 all_ok.

(** A plane whose state query returns [NULL]. *)
Definition plane_null (id : Z) : plane_env :=
  mk_plane id None (Some fb2_single) None 0 all_ok.

(** An active plane whose buffer is not resolved. *)
Definition plane_unresolved (id : Z) : plane_env :=
  mk_plane id (Some (5, 6)) None None 0 all_ok.

(** An active plane whose memory plane 0 cannot be mapped ([ENOMEM]). *)
Definition plane_map_fails (id : Z) : plane_env :=
  mk_plane id (Some (5, 6)) (Some fb2_single) None 0
    (mk4 mem_map_fails mem_ok mem_ok mem_ok).

(** An active plane for which [fwrite] writes no item. *)
Definition plane_write_fails (id : Z) : plane_env :=
  mk_plane id (Some (5, 6)) (Some fb2_single) None 0
    (mk4 mem_write_fails mem_ok mem_ok mem_ok).

(** An active plane with a sparse buffer. *)
Definition plane_sparse (id : Z) : plane_env :=
  mk_plane id (Some (5, 6)) (Some fb2_sparse) None 0 all_ok.

(** A machine with two device nodes, the second with dumb buffers, on which
    every call but those of the planes [pls] succeeds. *)
Definition machine (pls : list plane_env) : world :=
  mk_world 2 "shot" [mk_card true 0 0; mk_card true 0 1] true 0 0
    (Some pls) (-1) 0.

(** The same machine when the universal planes capability is refused. *)
Definition machine_without_caps (pls : list plane_env) : world :=
  mk_world 2 "shot" [mk_card true 0 0; mk_card true 0 1] true 0 (-22)
    (Some pls) (-1) 0.

End Scenario.

(** * Properties *)

(** ** Pixel converter *)

Module PixelFacts.
Import Pixel.

Lemma all_bits_sound (P : Z -> bool) (n : nat) :
  forall hi,
    all_bits n hi P = true ->
    forall z, hi * 2 ^ Z.of_nat n <= z < (hi + 1) * 2 ^ Z.of_nat n ->
              P z = true.
Proof.
  induction n as [|n IH]; intros hi Hall z Hz.
  - cbn in Hall. change (2 ^ Z.of_nat 0) with 1 in Hz.
    replace z with hi by lia. exact Hall.
  - cbn [all_bits] in Hall. apply andb_true_iff in Hall.
    destruct Hall as [H0 H1].
    rewrite Nat2Z.inj_succ, Z.pow_succ_r in Hz by lia.
    destruct (Z_lt_ge_dec z ((2 * hi + 1) * 2 ^ Z.of_nat n)) as [Hlt | Hge].
    + apply (IH (2 * hi) H0). lia.
    + apply (IH (2 * hi + 1) H1). lia.
Qed.

Lemma rgb16_test_all : all_bits 16 0 rgb16_test = true.
Proof. vm_compute. reflexivity. Qed.

Lemma channel_eqb_eq (c d : uint24_t) : channel_eqb c d = true -> c = d.
Proof.
  destruct c, d. unfold channel_eqb. cbn.
  rewrite !andb_true_iff, !Z.eqb_eq. intros [[-> ->] ->]. reflexivity.
Qed.

(** C7.  For every 16-bit pixel [px] the blue channel is bits 0-4 of [px]
    shifted left by 3, the green channel bits 5-10 shifted right by 3 and the
    red channel bits 11-15 shifted right by 8; the low 3 bits of blue and the
    low 2 bits of green (and the low 3 of red) are 0; cutting a channel back
    to its 5 or 6 bits and scaling it again gives the channel back, and the
    pixel packed from the cut channels is [px], so converting it again gives
    the same sample. *)
Theorem rgb16_to_24_channels (px : Z) (Hpx : 0 <= px < 2 ^ 16) :
  let c := rgb16_to_24 px in
  (b c = Z.shiftl (bits 0 4 px) 3 /\
   g c = Z.shiftr (bits 5 10 px) 3 /\
   r c = Z.shiftr (bits 11 15 px) 8) /\
  (Z.land (b c) 7 = 0 /\ Z.land (g c) 3 = 0 /\ Z.land (r c) 7 = 0) /\
  (Z.shiftl (Z.shiftr (b c) 3) 3 = b c /\
   Z.shiftl (Z.shiftr (g c) 2) 2 = g c /\
   Z.shiftl (Z.shiftr (r c) 3) 3 = r c) /\
  requantize c = px /\
  rgb16_to_24 (requantize c) = c.
Proof.
  pose proof (all_bits_sound _ _ _ rgb16_test_all px) as H.
  assert (Ht : rgb16_test px = true)
    by (apply H; change (2 ^ Z.of_nat 16) with (2 ^ 16); lia).
  clear H. unfold rgb16_test in Ht.
  repeat rewrite andb_true_iff in Ht. repeat rewrite Z.eqb_eq in Ht.
  cbv zeta in *.
  destruct Ht as [[[[[[[[[[H1 H2] H3] H4] H5] H6] H7] H8] H9] H10] H11].
  apply channel_eqb_eq in H11.
  repeat split; assumption.
Qed.

Lemma rgb16_to_24_channels_witness :
  0 <= 0xffff < 2 ^ 16 /\
  requantize (rgb16_to_24 0xffff) = 0xffff.
Proof.
  split; [lia|].
  apply (rgb16_to_24_channels 0xffff). lia.
Defined.

(** *** 32-bit pixels *)

Lemma u8_small (z : Z) : 0 <= z < 2 ^ 8 -> u8 z = z.
Proof. intros H. unfold u8. apply Z.mod_small. exact H. Qed.

Lemma land_0xff (z : Z) : Z.land z 0xff = z mod 2 ^ 8.
Proof. change 0xff with (Z.ones 8). apply Z.land_ones. lia. Qed.

Lemma rgb32_b (px : Z) : b (rgb32_to_24 px) = px mod 2 ^ 8.
Proof.
  change (b (rgb32_to_24 px)) with (u8 (Z.land px 0xff)).
  rewrite land_0xff. apply u8_small. apply Z.mod_pos_bound. lia.
Qed.

Lemma rgb32_g (px : Z) : g (rgb32_to_24 px) = (px / 2 ^ 8) mod 2 ^ 8.
Proof.
  change (g (rgb32_to_24 px)) with (u8 (Z.land (Z.shiftr px 8) 0xff)).
  rewrite land_0xff, Z.shiftr_div_pow2 by lia.
  apply u8_small. apply Z.mod_pos_bound. lia.
Qed.

Lemma rgb32_r (px : Z) : r (rgb32_to_24 px) = (px / 2 ^ 16) mod 2 ^ 8.
Proof.
  change (r (rgb32_to_24 px)) with (u8 (Z.land (Z.shiftr px 16) 0xff)).
  rewrite land_0xff, Z.shiftr_div_pow2 by lia.
  apply u8_small. apply Z.mod_pos_bound. lia.
Qed.

(** The three channels are the three low bytes of [px]: bit [i] of blue,
    green and red is bit [i], [i + 8] and [i + 16] of [px], and together
    they are [px] without its top byte. *)
Lemma rgb32_to_24_channels (px : Z) :
  let c := rgb32_to_24 px in
  (forall i, 0 <= i < 8 ->
     Z.testbit (b c) i = Z.testbit px i /\
     Z.testbit (g c) i = Z.testbit px (i + 8) /\
     Z.testbit (r c) i = Z.testbit px (i + 16)) /\
  (0 <= b c < 2 ^ 8 /\ 0 <= g c < 2 ^ 8 /\ 0 <= r c < 2 ^ 8) /\
  r c * 2 ^ 16 + g c * 2 ^ 8 + b c = px mod 2 ^ 24.
Proof.
  cbv zeta. rewrite rgb32_b, rgb32_g, rgb32_r.
  split; [|split].
  - intros i Hi.
    rewrite !Z.mod_pow2_bits_low by lia.
    rewrite <- !Z.shiftr_div_pow2 by lia.
    rewrite !Z.shiftr_spec by lia. auto.
  - repeat split; try apply Z.mod_pos_bound; lia.
  - change (2 ^ 24) with (2 ^ 8 * (2 ^ 8 * 2 ^ 8)).
    change (2 ^ 16) with (2 ^ 8 * 2 ^ 8).
    rewrite <- (Z.div_div px (2 ^ 8) (2 ^ 8)) by lia.
    rewrite (Z.rem_mul_r px (2 ^ 8) (2 ^ 8 * 2 ^ 8)) by lia.
    rewrite (Z.rem_mul_r (px / 2 ^ 8) (2 ^ 8) (2 ^ 8)) by lia.
    ring.
Qed.

(** *** The copy loop *)

Lemma byte_val_range (x : byte) : 0 <= byte_val x < 2 ^ 8.
Proof.
  unfold byte_val. pose proof (Byte.to_N_bounded x) as H.
  change (2 ^ 8) with 256. lia.
Qed.

Lemma le_value_range (bs : list byte) :
  0 <= le_value bs < 2 ^ (8 * Z.of_nat (List.length bs)).
Proof.
  induction bs as [|x bs IH].
  - cbn. lia.
  - cbn [le_value List.length].
    replace (8 * Z.of_nat (S (List.length bs)))
      with (8 + 8 * Z.of_nat (List.length bs)) by lia.
    rewrite Z.pow_add_r by lia.
    pose proof (byte_val_range x). nia.
Qed.

Lemma load_inside (be : bool) (n : nat) (from : list byte) (i : nat) :
  (i * n + n <= List.length from)%nat ->
  exists px, load be n from i = Some px /\ 0 <= px < 2 ^ (8 * Z.of_nat n).
Proof.
  intros Hlen. unfold load.
  assert (Hn : List.length (firstn n (skipn (i * n) from)) = n).
  { rewrite length_firstn, length_skipn. lia. }
  rewrite Hn, Nat.eqb_refl. eexists. split; [reflexivity|].
  unfold host_value.
  pose proof (le_value_range
                (if be then rev (firstn n (skipn (i * n) from))
                 else firstn n (skipn (i * n) from))) as Hr.
  destruct be; [rewrite length_rev in Hr|]; rewrite Hn in Hr; exact Hr.
Qed.

Lemma convert_loop_total (rd : nat -> option Z) (conv : Z -> uint24_t)
    (len : nat) :
  forall i,
    (forall j, (i <= j < i + len)%nat -> exists px, rd j = Some px) ->
    exists out,
      convert_loop rd conv len i = Some out /\
      List.length out = len /\
      forall k, (k < len)%nat ->
        exists px, rd (i + k)%nat = Some px /\
                   nth_error out k = Some (conv px).
Proof.
  induction len as [|len IH]; intros i Hrd.
  - exists []. repeat split; intros; lia.
  - destruct (Hrd i ltac:(lia)) as [px Hpx].
    destruct (IH (S i)) as [out [Hout [Hlen Hnth]]].
    { intros j Hj. apply Hrd. lia. }
    exists (conv px :: out). cbn [convert_loop]. rewrite Hpx, Hout.
    repeat split; [cbn; lia|].
    intros [|k] Hk.
    + exists px. rewrite Nat.add_0_r. auto.
    + destruct (Hnth k ltac:(lia)) as [q [Hq1 Hq2]].
      exists q. replace (i + S k)%nat with (S i + k)%nat by lia. auto.
Qed.

Lemma pixel_count_range (fb : drmModeFB) : 0 <= pixel_count fb < 2 ^ 32.
Proof. unfold pixel_count, u32. apply Z.mod_pos_bound. lia. Qed.

(** C10, as the code has it.  [convert_to_24] rejects no depth: whatever
    [bpp] is, a region that holds the pixels it reads (2 bytes each when
    [bpp] is 16, 4 bytes each otherwise) is converted, and the number of
    samples is [width * height] reduced to 32 bits.  When [bpp] is not 16
    sample [i] is [rgb32_to_24] of the [i]-th 32-bit word of the region, in
    the order of the region, and the result is the one for [bpp = 32].  The
    channels of [rgb32_to_24 px] are bits 0-7, 8-15 and 16-23 of [px], so the
    low 24 bits are kept and the top 8 dropped. *)
Theorem convert_to_24_any_depth (be : bool) (fb : drmModeFB)
    (from : list byte)
    (Hbuf : (if bpp fb =? 16 then 2 else 4) * pixel_count fb
            <= Z.of_nat (List.length from)) :
  exists out,
    convert_to_24 be fb from = Some out /\
    Z.of_nat (List.length out) = pixel_count fb /\
    (bpp fb <> 16 ->
       (forall i, (i < List.length out)%nat ->
          exists px, load be 4 from i = Some px /\ 0 <= px < 2 ^ 32 /\
                     nth_error out i = Some (rgb32_to_24 px)) /\
       convert_to_24 be (mk_fb (width fb) (height fb) 32) from = Some out) /\
    (forall px,
       let c := rgb32_to_24 px in
       (forall i, 0 <= i < 8 ->
          Z.testbit (b c) i = Z.testbit px i /\
          Z.testbit (g c) i = Z.testbit px (i + 8) /\
          Z.testbit (r c) i = Z.testbit px (i + 16)) /\
       r c * 2 ^ 16 + g c * 2 ^ 8 + b c = px mod 2 ^ 24).
Proof.
  pose proof (pixel_count_range fb) as Hc.
  unfold convert_to_24.
  destruct (bpp fb =? 16) eqn:Hb.
  - destruct (convert_loop_total (load be 2 from) rgb16_to_24
                (Z.to_nat (pixel_count fb)) 0%nat) as [out [Ho [Hl _]]].
    { intros j Hj. destruct (load_inside be 2 from j) as [px [Hpx _]];
        [lia | eauto]. }
    exists out. split; [exact Ho|]. split; [lia|]. split.
    + intros Hne. apply Z.eqb_eq in Hb. contradiction.
    + intros px. pose proof (rgb32_to_24_channels px) as H. cbv zeta in *.
      tauto.
  - destruct (convert_loop_total (load be 4 from) rgb32_to_24
                (Z.to_nat (pixel_count fb)) 0%nat) as [out [Ho [Hl Hn]]].
    { intros j Hj. destruct (load_inside be 4 from j) as [px [Hpx _]];
        [lia | eauto]. }
    exists out. split; [exact Ho|]. split; [lia|]. split.
    + intros _. split.
      * intros i Hi. destruct (Hn i ltac:(lia)) as [px [Hpx Hnth]].
        cbn [Nat.add] in Hpx. exists px. repeat split; try exact Hpx;
          try exact Hnth;
          destruct (load_inside be 4 from i) as [q [Hq Hr]]; try lia;
          rewrite Hpx in Hq; injection Hq as <-;
          change (8 * Z.of_nat 4) with 32 in Hr; lia.
      * cbn [bpp width height]. change (32 =? 16) with false.
        unfold pixel_count in *. cbn [width height]. exact Ho.
    + intros px. pose proof (rgb32_to_24_channels px) as H. cbv zeta in *.
      tauto.
Qed.

Lemma convert_to_24_any_depth_witness :
  4 * pixel_count (mk_fb 2 1 24) <= Z.of_nat (List.length (repeat "A"%byte 8)) /\
  exists out, convert_to_24 false (mk_fb 2 1 24) (repeat "A"%byte 8) = Some out /\
              Z.of_nat (List.length out) = 2.
Proof.
  assert (H : 4 * pixel_count (mk_fb 2 1 24)
              <= Z.of_nat (List.length (repeat "A"%byte 8)))
    by (vm_compute; discriminate).
  split; [exact H|].
  destruct (convert_to_24_any_depth false (mk_fb 2 1 24) (repeat "A"%byte 8) H)
    as [out [Ho [Hl _]]].
  exists out. split; [exact Ho | exact Hl].
Defined.

(** C10, against the count as written: a 65536 by 65536 buffer has
    [width * height = 2^32] pixels, but [len] is an [unsigned int] and is 0,
    so no sample is produced. *)
Lemma convert_to_24_count_wraps :
  exists out,
    convert_to_24 false (mk_fb 65536 65536 32) [] = Some out /\
    Z.of_nat (List.length out)
    <> width (mk_fb 65536 65536 32) * height (mk_fb 65536 65536 32).
Proof. exists []. split; [reflexivity | discriminate]. Qed.

End PixelFacts.

(** ** Buffer exporter/mapper *)

(** C6, against the length as written: for a pitch and a height of 65536 the
    product is [2^32], and the [unsigned int] product that is mapped is 0. *)
Lemma map_size_wraps :
  0 < get4 (pitches (mk_fb2 65536 (mk4 65536 0 0 0) (mk4 1 0 0 0))) 0 /\
  0 < height (mk_fb2 65536 (mk4 65536 0 0 0) (mk4 1 0 0 0)) /\
  map_size (mk_fb2 65536 (mk4 65536 0 0 0) (mk4 1 0 0 0)) 0
  <> get4 (pitches (mk_fb2 65536 (mk4 65536 0 0 0) (mk4 1 0 0 0))) 0
     * height (mk_fb2 65536 (mk4 65536 0 0 0) (mk4 1 0 0 0)).
Proof. repeat split; vm_compute; discriminate. Qed.

(** C6, as the code has it.  For a positive pitch and height, the length
    mapped for memory plane 0 is [pitches[0] * height] reduced modulo
    [2^32], and for memory plane 1, 2 or 3 it is half of
    [pitches[p] * height] reduced modulo [2^32], rounded down.  When the
    product is below [2^32] these are [pitches[0] * height] and
    [pitches[p] * height / 2]; when it is not, the length mapped is smaller
    than that. *)
Theorem map_size_modulo (fb2 : drmModeFB2) (p : Z)
    (Hpitch : 0 < get4 (pitches fb2) p) (Hheight : 0 < height fb2) :
  (p = 0 ->
   map_size fb2 p = (get4 (pitches fb2) p * height fb2) mod 2 ^ 32) /\
  (p = 1 \/ p = 2 \/ p = 3 ->
   map_size fb2 p = (get4 (pitches fb2) p * height fb2) mod 2 ^ 32 / 2) /\
  (get4 (pitches fb2) p * height fb2 < 2 ^ 32 ->
   (p = 0 -> map_size fb2 p = get4 (pitches fb2) p * height fb2) /\
   (p = 1 \/ p = 2 \/ p = 3 ->
    map_size fb2 p = get4 (pitches fb2) p * height fb2 / 2)) /\
  (2 ^ 32 <= get4 (pitches fb2) p * height fb2 ->
   (p = 0 -> map_size fb2 p < get4 (pitches fb2) p * height fb2) /\
   (p = 1 \/ p = 2 \/ p = 3 ->
    map_size fb2 p < get4 (pitches fb2) p * height fb2 / 2)).
Proof.
  unfold map_size, u32.
  set (x := get4 (pitches fb2) p * height fb2).
  assert (Hx : 0 < x) by (unfold x; nia).
  pose proof (Z.mod_pos_bound x (2 ^ 32) ltac:(lia)) as Hm.
  split; [intros ->; cbn [Z.eqb]; apply Z.div_1_r|].
  split; [intros [-> | [-> | ->]]; reflexivity|].
  split.
  - intros Hfits. rewrite Z.mod_small by lia. split.
    + intros ->. cbn [Z.eqb]. apply Z.div_1_r.
    + intros [-> | [-> | ->]]; reflexivity.
  - intros Hbig.
    assert (Hle : x mod 2 ^ 32 <= x - 2 ^ 32).
    { pose proof (Z.div_mod x (2 ^ 32) ltac:(lia)) as Hd.
      assert (1 <= x / 2 ^ 32) by (apply Z.div_le_lower_bound; lia).
      lia. }
    split.
    + intros ->. cbn [Z.eqb]. rewrite Z.div_1_r. lia.
    + assert (Hhalf : x mod 2 ^ 32 / 2 < x / 2).
      { apply Z.le_lt_trans with ((x - 2 ^ 32) / 2).
        - apply Z.div_le_mono; lia.
        - replace (x - 2 ^ 32) with (x + (- 2 ^ 31) * 2) by lia.
          rewrite Z.div_add by lia. lia. }
      intros [-> | [-> | ->]]; exact Hhalf.
Qed.

Lemma map_size_modulo_witness :
  map_size (mk_fb2 1080 (mk4 1920 1921 0 0) (mk4 1 2 0 0)) 0 = 1920 * 1080 /\
  map_size (mk_fb2 65536 (mk4 65536 65537 0 0) (mk4 1 2 0 0)) 1
  = (65537 * 65536) mod 2 ^ 32 / 2.
Proof.
  split.
  - apply (map_size_modulo (mk_fb2 1080 (mk4 1920 1921 0 0) (mk4 1 2 0 0)) 0);
      [reflexivity | reflexivity | reflexivity | reflexivity].
  - apply (map_size_modulo
             (mk_fb2 65536 (mk4 65536 65537 0 0) (mk4 1 2 0 0)) 1);
      [reflexivity | reflexivity | auto].
Defined.

(** X16.  Every length that is mapped fits in 32 bits, whatever the pitch
    and the height are. *)
Lemma map_size_range (fb2 : drmModeFB2) (p : Z) : 0 <= map_size fb2 p < 2 ^ 32.
Proof.
  unfold map_size, u32.
  pose proof (Z.mod_pos_bound (get4 (pitches fb2) p * height fb2) (2 ^ 32)
                ltac:(lia)) as H.
  destruct (p =? 0).
  - rewrite Z.div_1_r. exact H.
  - split; [apply Z.div_pos; lia|].
    apply Z.div_lt_upper_bound; lia.
Qed.

(** What one iteration of the loop of [save_png] does, case by case. *)
Lemma mem_plane_eq (fb2 : drmModeFB2) (drm_fd : Z) (e : mem_env) (p : Z)
    (ret0 prime_fd0 : Z) (t : fdtable) :
  let h := get4 (handles fb2) p in
  let fd := lowest_free t in
  let export := PrimeHandleToFD drm_fd h (export_ret e) in
  mem_plane fb2 drm_fd e p (ret0, prime_fd0) t =
  if h =? 0 then ((ret0, prime_fd0), t, [])
  else if export_ret e <? 0 then ((ret0, prime_fd0), t, [export])
  else match map_errno e with
       | Some errno =>
           ((- Z.pos errno, fd), t,
            [export; Mmap (map_size fb2 p) fd false;
             Stderr ("Unable to mmap prime buffer plane " ++ decimal p);
             Close fd])
       | None =>
           ((ret0, fd), t,
            [export; Mmap (map_size fb2 p) fd true;
             Fwrite (map_size fb2 p) (write_items e);
             Munmap (map_size fb2 p); Close fd])
       end.
Proof.
  cbv zeta. unfold mem_plane.
  destruct (get4 (handles fb2) p =? 0); [reflexivity|].
  unfold bind at 1. unfold drmPrimeHandleToFD.
  destruct (export_ret e <? 0) eqn:He.
  - cbn. rewrite He. reflexivity.
  - cbn -[map_size]. rewrite He.
    unfold sys_mmap. destruct (map_errno e) as [errno|];
      cbn -[map_size]; rewrite Z.eqb_refl; reflexivity.
Qed.

(** *** Reading off a sequenced computation *)

Lemma bind_run {A B : Type} (c : M A) (k : A -> M B) (t : fdtable) :
  bind c k t =
  (value (k (value (c t)) (table (c t))),
   table (k (value (c t)) (table (c t))),
   calls (c t) ++ calls (k (value (c t)) (table (c t)))).
Proof.
  unfold bind, value, table, calls.
  destruct (c t) as [[a t1] l1]. cbn.
  destruct (k a t1) as [[b0 t2] l2]. reflexivity.
Qed.

Lemma value_bind {A B : Type} (c : M A) (k : A -> M B) (t : fdtable) :
  value (bind c k t) = value (k (value (c t)) (table (c t))).
Proof. rewrite bind_run. reflexivity. Qed.

Lemma table_bind {A B : Type} (c : M A) (k : A -> M B) (t : fdtable) :
  table (bind c k t) = table (k (value (c t)) (table (c t))).
Proof. rewrite bind_run. reflexivity. Qed.

Lemma calls_bind {A B : Type} (c : M A) (k : A -> M B) (t : fdtable) :
  calls (bind c k t) = calls (c t) ++ calls (k (value (c t)) (table (c t))).
Proof. rewrite bind_run. reflexivity. Qed.

Lemma run_eta {A : Type} (x : A * fdtable * list event) :
  x = (value x, table x, calls x).
Proof. destruct x as [[a t] l]. reflexivity. Qed.

Lemma bind_ret {A B : Type} (a : A) (k : A -> M B) (t : fdtable) :
  bind (ret a) k t = k a t.
Proof. rewrite bind_run. cbn. symmetry. apply run_eta. Qed.

Lemma bind_emit {B : Type} (e : event) (k : unit -> M B) (t : fdtable) :
  bind (emit e) k t = (value (k tt t), table (k tt t), e :: calls (k tt t)).
Proof. rewrite bind_run. reflexivity. Qed.

Lemma bind_ext {A B : Type} (c : M A) (k k' : A -> M B) (t : fdtable) :
  (forall a t', k a t' = k' a t') -> bind c k t = bind c k' t.
Proof. intros H. rewrite !bind_run, H. reflexivity. Qed.

(** *** Descriptors *)

Lemma remove_fd_head (fd : Z) (f : file) (t : fdtable) :
  remove_fd fd ((fd, f) :: t) = t.
Proof. cbn. rewrite Z.eqb_refl. reflexivity. Qed.

Lemma is_open_In (k : Z) (t : fdtable) :
  is_open k t = true <-> In k (map fst t).
Proof.
  unfold is_open. rewrite existsb_exists, in_map_iff.
  split; intros [e [H1 H2]]; exists e.
  - apply Z.eqb_eq in H2. auto.
  - split; [exact H2 | apply Z.eqb_eq; exact H1].
Qed.

Lemma lowest_free_from_spec (t : fdtable) (fuel : nat) :
  forall fd,
    fd <= lowest_free_from fuel fd t <= fd + Z.of_nat fuel /\
    (forall k, fd <= k < lowest_free_from fuel fd t -> is_open k t = true) /\
    (lowest_free_from fuel fd t < fd + Z.of_nat fuel ->
     is_open (lowest_free_from fuel fd t) t = false).
Proof.
  induction fuel as [|fuel IH]; intros fd.
  - cbn. repeat split; intros; lia.
  - cbn [lowest_free_from]. destruct (is_open fd t) eqn:Hfd.
    + destruct (IH (fd + 1)) as [H1 [H2 H3]].
      split; [lia|]. split.
      * intros k Hk. destruct (Z.eq_dec k fd) as [-> | Hne]; [exact Hfd|].
        apply H2. lia.
      * intros Hlt. apply H3. lia.
    + split; [lia|]. split; [intros; lia | intros _; exact Hfd].
Qed.

Lemma all_open_bound (t : fdtable) (n : nat) :
  (forall k, 0 <= k < Z.of_nat n -> is_open k t = true) ->
  (n <= List.length t)%nat.
Proof.
  intros Hall.
  rewrite <- (length_map fst t).
  replace n with (List.length (map Z.of_nat (seq 0 n)))
    by (rewrite length_map, length_seq; reflexivity).
  apply NoDup_incl_length.
  - apply NoDup_map_NoDup_ForallPairs; [|apply seq_NoDup].
    intros x y _ _ Hxy. lia.
  - intros k Hk. apply in_map_iff in Hk. destruct Hk as [i [<- Hi]].
    apply in_seq in Hi. apply is_open_In. apply Hall. lia.
Qed.

Lemma lowest_free_nonneg (t : fdtable) : 0 <= lowest_free t.
Proof.
  unfold lowest_free.
  pose proof (lowest_free_from_spec t (List.length t) 0). lia.
Qed.

Lemma lowest_free_not_open (t : fdtable) : is_open (lowest_free t) t = false.
Proof.
  unfold lowest_free.
  destruct (lowest_free_from_spec t (List.length t) 0) as [H1 [H2 H3]].
  destruct (Z.eq_dec (lowest_free_from (List.length t) 0 t)
              (Z.of_nat (List.length t))) as [Heq | Hne].
  - destruct (is_open (lowest_free_from (List.length t) 0 t) t) eqn:Ho;
      [|reflexivity].
    exfalso.
    assert (Hb : (S (List.length t) <= List.length t)%nat).
    { apply all_open_bound. intros k Hk.
      destruct (Z.eq_dec k (Z.of_nat (List.length t))) as [-> | Hk'].
      - rewrite <- Heq. exact Ho.
      - apply H2. lia. }
    lia.
  - apply H3. lia.
Qed.

Lemma lowest_free_ltb (t : fdtable) : (lowest_free t <? 0) = false.
Proof. pose proof (lowest_free_nonneg t). lia. Qed.

(** *** One memory plane *)

Lemma mem_plane_table (fb2 : drmModeFB2) (drm_fd : Z) (e : mem_env) (p : Z)
    (st : Z * Z) (t : fdtable) :
  table (mem_plane fb2 drm_fd e p st t) = t.
Proof.
  destruct st as [ret0 fd0]. rewrite mem_plane_eq. cbv zeta.
  destruct (get4 (handles fb2) p =? 0); [reflexivity|].
  destruct (export_ret e <? 0); [reflexivity|].
  destruct (map_errno e); reflexivity.
Qed.

Lemma mem_plane_ret (fb2 : drmModeFB2) (drm_fd : Z) (pe : plane_env) (p : Z)
    (ret0 fd0 : Z) (t : fdtable) :
  fst (value (mem_plane fb2 drm_fd (get4 (mem pe) p) p (ret0, fd0) t)) =
  if map_fails_at fb2 pe p
  then match map_errno (get4 (mem pe) p) with
       | Some errno => - Z.pos errno
       | None => ret0
       end
  else ret0.
Proof.
  unfold map_fails_at. rewrite mem_plane_eq. cbv zeta.
  destruct (get4 (handles fb2) p =? 0); [reflexivity|].
  replace (0 <=? export_ret (get4 (mem pe) p))
    with (negb (export_ret (get4 (mem pe) p) <? 0)) by lia.
  destruct (export_ret (get4 (mem pe) p) <? 0); [reflexivity|].
  destruct (map_errno (get4 (mem pe) p)); reflexivity.
Qed.

(** The calls of an iteration do not depend on the values it finds in [ret]
    and [prime_fd]. *)
Lemma mem_plane_calls_state (fb2 : drmModeFB2) (drm_fd : Z) (e : mem_env)
    (p : Z) (st : Z * Z) (t : fdtable) :
  calls (mem_plane fb2 drm_fd e p st t)
  = calls (mem_plane fb2 drm_fd e p (0, 0) t).
Proof.
  destruct st as [ret0 fd0]. rewrite !mem_plane_eq. cbv zeta.
  destruct (get4 (handles fb2) p =? 0); [reflexivity|].
  destruct (export_ret e <? 0); [reflexivity|].
  destruct (map_errno e); reflexivity.
Qed.

Lemma mem_plane_absent (fb2 : drmModeFB2) (drm_fd : Z) (e : mem_env) (p : Z)
    (st : Z * Z) (t : fdtable) :
  get4 (handles fb2) p = 0 -> mem_plane fb2 drm_fd e p st t = (st, t, []).
Proof.
  intros Hh. destruct st as [ret0 fd0]. rewrite mem_plane_eq. cbv zeta.
  rewrite Hh. reflexivity.
Qed.

Lemma mem_plane_kinds (fb2 : drmModeFB2) (drm_fd : Z) (e : mem_env) (p : Z)
    (st : Z * Z) (t : fdtable) :
  forallb is_save_call (calls (mem_plane fb2 drm_fd e p st t)) = true.
Proof.
  destruct st as [ret0 fd0]. rewrite mem_plane_eq. cbv zeta.
  destruct (get4 (handles fb2) p =? 0); [reflexivity|].
  destruct (export_ret e <? 0); [reflexivity|].
  destruct (map_errno e); reflexivity.
Qed.

Lemma mem_plane_exports (fb2 : drmModeFB2) (drm_fd : Z) (e : mem_env) (p : Z)
    (st : Z * Z) (t : fdtable) (d h r : Z) :
  In (PrimeHandleToFD d h r) (calls (mem_plane fb2 drm_fd e p st t)) ->
  h = get4 (handles fb2) p /\ h <> 0.
Proof.
  destruct st as [ret0 fd0]. rewrite mem_plane_eq. cbv zeta.
  destruct (get4 (handles fb2) p =? 0) eqn:Hh; [intros []|].
  apply Z.eqb_neq in Hh.
  assert (Hhead : PrimeHandleToFD drm_fd (get4 (handles fb2) p) (export_ret e)
                  = PrimeHandleToFD d h r ->
                  h = get4 (handles fb2) p /\ h <> 0).
  { intros Heq. injection Heq as _ <- _. auto. }
  destruct (export_ret e <? 0).
  - intros [Heq | []]. auto.
  - destruct (map_errno e); cbn [calls snd In]; intros Hin;
      repeat (destruct Hin as [Heq | Hin]; [auto; discriminate|]);
      contradiction.
Qed.

Lemma mem_plane_counts (fb2 : drmModeFB2) (drm_fd : Z) (e : mem_env) (p : Z)
    (st : Z * Z) (t : fdtable) :
  let c := calls (mem_plane fb2 drm_fd e p st t) in
  (List.length (filter is_export c)
   <= if (get4 (handles fb2) p =? 0)%Z then 0 else 1)%nat /\
  (List.length (filter is_mmap c) <= List.length (filter is_export c))%nat /\
  (List.length (filter is_fwrite c) <= List.length (filter is_mmap c))%nat.
Proof.
  destruct st as [ret0 fd0]. cbv zeta. rewrite mem_plane_eq. cbv zeta.
  destruct (get4 (handles fb2) p =? 0); [cbn; lia|].
  destruct (export_ret e <? 0); [cbn; lia|].
  destruct (map_errno e); cbn; lia.
Qed.

(** *** The loop over the memory planes *)

Lemma mem_planes_table (fb2 : drmModeFB2) (drm_fd : Z) (pe : plane_env)
    (ps : list Z) :
  forall st t, table (mem_planes fb2 drm_fd pe ps st t) = t.
Proof.
  induction ps as [|p ps IH]; intros st t; [reflexivity|].
  cbn [mem_planes]. rewrite table_bind, IH. apply mem_plane_table.
Qed.

Lemma mem_planes_ret (fb2 : drmModeFB2) (drm_fd : Z) (pe : plane_env)
    (ps : list Z) :
  forall ret0 fd0 t,
    fst (value (mem_planes fb2 drm_fd pe ps (ret0, fd0) t))
    = ret_after fb2 pe ps ret0.
Proof.
  induction ps as [|p ps IH]; intros ret0 fd0 t; [reflexivity|].
  cbn [mem_planes ret_after]. rewrite value_bind.
  rewrite <- (mem_plane_ret fb2 drm_fd pe p ret0 fd0 t).
  destruct (value (mem_plane fb2 drm_fd (get4 (mem pe) p) p (ret0, fd0) t))
    as [ret1 fd1].
  apply IH.
Qed.

Lemma mem_planes_calls (fb2 : drmModeFB2) (drm_fd : Z) (pe : plane_env)
    (ps : list Z) :
  forall st t,
    calls (mem_planes fb2 drm_fd pe ps st t)
    = flat_map (fun p => calls (mem_plane fb2 drm_fd (get4 (mem pe) p) p
                                  (0, 0) t)) ps.
Proof.
  induction ps as [|p ps IH]; intros st t; [reflexivity|].
  cbn [mem_planes flat_map]. rewrite calls_bind, IH, mem_plane_table.
  rewrite mem_plane_calls_state. reflexivity.
Qed.

(** The loop does the same over the planes that are present only. *)
Lemma mem_planes_present (fb2 : drmModeFB2) (drm_fd : Z) (pe : plane_env)
    (ps : list Z) :
  forall st t,
    mem_planes fb2 drm_fd pe ps st t
    = mem_planes fb2 drm_fd pe
        (filter (fun p => negb (get4 (handles fb2) p =? 0)) ps) st t.
Proof.
  induction ps as [|p ps IH]; intros st t; [reflexivity|].
  cbn [mem_planes filter].
  destruct (get4 (handles fb2) p =? 0) eqn:Hh; cbn [negb].
  - apply Z.eqb_eq in Hh.
    rewrite bind_run, (mem_plane_absent _ _ _ _ _ _ Hh).
    cbn [value table calls fst snd app]. rewrite <- IH. symmetry.
    apply run_eta.
  - cbn [mem_planes]. apply bind_ext. intros a t'. apply IH.
Qed.

Lemma ret_after_failed (fb2 : drmModeFB2) (pe : plane_env) (ps : list Z) :
  forall ret0,
    existsb (map_fails_at fb2 pe) ps = true ->
    ret_after fb2 pe ps ret0 < 0.
Proof.
  induction ps as [|p ps IH]; intros ret0 Hex; [discriminate|].
  cbn [ret_after].
  destruct (existsb (map_fails_at fb2 pe) ps) eqn:Hps; [apply IH; reflexivity|].
  cbn [existsb] in Hex. rewrite Hps, orb_false_r in Hex. rewrite Hex.
  assert (Hclean : forall x, ret_after fb2 pe ps x = x).
  { clear IH Hex. induction ps as [|q ps IHq]; intros x; [reflexivity|].
    cbn [existsb] in Hps. apply orb_false_iff in Hps. destruct Hps as [Hq Hr].
    cbn [ret_after]. rewrite Hq. apply IHq. exact Hr. }
  rewrite Hclean.
  unfold map_fails_at in Hex. apply andb_true_iff in Hex.
  destruct Hex as [_ Hm].
  destruct (map_errno (get4 (mem pe) p)); [lia | discriminate].
Qed.

Lemma ret_after_clean (fb2 : drmModeFB2) (pe : plane_env) (ps : list Z) :
  forall ret0,
    existsb (map_fails_at fb2 pe) ps = false ->
    ret_after fb2 pe ps ret0 = ret0.
Proof.
  induction ps as [|q ps IH]; intros x Hps; [reflexivity|].
  cbn [existsb] in Hps. apply orb_false_iff in Hps. destruct Hps as [Hq Hr].
  cbn [ret_after]. rewrite Hq. apply IH. exact Hr.
Qed.

(** *** [save_png] *)

(** The whole of [save_png]: its return value, the descriptor table it
    leaves and the calls it makes. *)
Lemma save_png_eq (fb2 : drmModeFB2) (drm_fd : Z) (png_fn : string)
    (plane : Z) (pe : plane_env) (t : fdtable) :
  save_png fb2 drm_fd png_fn plane pe t =
  if fits_filename png_fn plane
  then
    match fopen_errno pe with
    | Some errno =>
        (Some (- Z.pos errno), t,
         [Fopen (output_name png_fn plane) false;
          Stderr "Failed to open output file"])
    | None =>
        (Some (ret_after fb2 pe [0; 1; 2; 3] (ret_indeterminate pe)), t,
         Fopen (output_name png_fn plane) true
         :: flat_map
              (fun p => calls (mem_plane fb2 drm_fd (get4 (mem pe) p) p (0, 0)
                                 ((lowest_free t,
                                   Regular (output_name png_fn plane)) :: t)))
              [0; 1; 2; 3]
         ++ [Fclose (output_name png_fn plane)])
    end
  else (None, t, []).
Proof.
  unfold save_png. destruct (fits_filename png_fn plane); [|reflexivity].
  cbn [negb]. rewrite bind_run. unfold sys_fopen.
  destruct (fopen_errno pe) as [errno|]; [reflexivity|].
  cbn [value table calls fst snd].
  rewrite bind_run.
  rewrite mem_planes_table, mem_planes_calls, mem_planes_ret.
  unfold sys_fclose.
  cbn [bind ret value table calls fst snd app].
  rewrite remove_fd_head. reflexivity.
Qed.

Lemma save_png_value (fb2 : drmModeFB2) (drm_fd : Z) (png_fn : string)
    (plane : Z) (pe : plane_env) (t : fdtable) :
  value (save_png fb2 drm_fd png_fn plane pe t)
  = if fits_filename png_fn plane then Some (save_png_result fb2 pe)
    else None.
Proof.
  rewrite save_png_eq. unfold save_png_result.
  destruct (fits_filename png_fn plane); [|reflexivity].
  destruct (fopen_errno pe); reflexivity.
Qed.

Lemma save_png_table (fb2 : drmModeFB2) (drm_fd : Z) (png_fn : string)
    (plane : Z) (pe : plane_env) (t : fdtable) :
  table (save_png fb2 drm_fd png_fn plane pe t) = t.
Proof.
  rewrite save_png_eq.
  destruct (fits_filename png_fn plane); [|reflexivity].
  destruct (fopen_errno pe); reflexivity.
Qed.

Lemma flat_map_kinds {A : Type} (f : A -> list event) (P : event -> bool)
    (l : list A) :
  (forall a, forallb P (f a) = true) -> forallb P (flat_map f l) = true.
Proof.
  intros H. induction l as [|a l IH]; [reflexivity|].
  cbn [flat_map]. rewrite forallb_app, H, IH. reflexivity.
Qed.

Lemma save_png_kinds (fb2 : drmModeFB2) (drm_fd : Z) (png_fn : string)
    (plane : Z) (pe : plane_env) (t : fdtable) :
  forallb is_save_call (calls (save_png fb2 drm_fd png_fn plane pe t)) = true.
Proof.
  rewrite save_png_eq.
  destruct (fits_filename png_fn plane); [|reflexivity].
  destruct (fopen_errno pe); [reflexivity|].
  cbn [calls snd forallb is_save_call andb].
  rewrite forallb_app, flat_map_kinds; [reflexivity|].
  intros p. apply mem_plane_kinds.
Qed.


(** ** Plane enumerator *)

(** One turn of the loop of lines 168-191. *)
Lemma enumerate_cons (drm_fd : Z) (png_fn : string) (pe : plane_env)
    (pls : list plane_env) (i : Z) (t : fdtable) :
  enumerate drm_fd png_fn (pe :: pls) i t =
  match plane_state pe with
  | None => (NullDereference, t, [GetPlane drm_fd (plane_id pe) false])
  | Some (fb_id, crtc_id) =>
      let rest := enumerate drm_fd png_fn pls (u32 (i + 1)) t in
      if (fb_id =? 0) || (crtc_id =? 0)
      then (value rest, table rest,
            [GetPlane drm_fd (plane_id pe) true; FreePlane] ++ calls rest)
      else
        match fb2_result pe with
        | None =>
            (Goto out_free_resources, t,
             [GetPlane drm_fd (plane_id pe) true; FreePlane;
              GetFB2 drm_fd fb_id false;
              Stderr ("Failed to get framebuffer " ++ decimal fb_id)])
        | Some fb2 =>
            let saved := save_png fb2 drm_fd png_fn i pe t in
            if negb (fits_filename png_fn i)
            then (FilenameOverrun, t,
                  [GetPlane drm_fd (plane_id pe) true; FreePlane;
                   GetFB2 drm_fd fb_id true])
            else if save_png_result fb2 pe <? 0
            then (Goto out_close_prime_fd, t,
                  [GetPlane drm_fd (plane_id pe) true; FreePlane;
                   GetFB2 drm_fd fb_id true]
                  ++ calls saved ++ [Stderr "Failed to take screenshot"])
            else (value rest, table rest,
                  [GetPlane drm_fd (plane_id pe) true; FreePlane;
                   GetFB2 drm_fd fb_id true]
                  ++ calls saved ++ calls rest)
        end
  end.
Proof.
  cbn [enumerate].
  destruct (plane_state pe) as [[fb_id crtc_id]|]; [|reflexivity].
  cbv zeta. rewrite !bind_emit.
  destruct ((fb_id =? 0) || (crtc_id =? 0)); [reflexivity|].
  destruct (fb2_result pe) as [fb2|]; [|reflexivity].
  rewrite bind_emit, bind_run.
  rewrite save_png_value, save_png_table.
  destruct (fits_filename png_fn i) eqn:Hfits; cbn [negb].
  - destruct (save_png_result fb2 pe <? 0); reflexivity.
  - rewrite save_png_eq, Hfits. reflexivity.
Qed.

Lemma enumerate_table (drm_fd : Z) (png_fn : string) (pls : list plane_env) :
  forall i t, table (enumerate drm_fd png_fn pls i t) = t.
Proof.
  induction pls as [|pe pls IH]; intros i t; [reflexivity|].
  rewrite enumerate_cons.
  destruct (plane_state pe) as [[fb_id crtc_id]|]; [|reflexivity].
  cbv zeta.
  destruct ((fb_id =? 0) || (crtc_id =? 0)); [apply IH|].
  destruct (fb2_result pe) as [fb2|]; [|reflexivity].
  destruct (negb (fits_filename png_fn i)); [reflexivity|].
  destruct (save_png_result fb2 pe <? 0); [reflexivity | apply IH].
Qed.

Lemma enumerate_value (drm_fd : Z) (png_fn : string) (pls : list plane_env) :
  forall i t,
    value (enumerate drm_fd png_fn pls i t) = loop_verdict png_fn i pls.
Proof.
  induction pls as [|pe pls IH]; intros i t; [reflexivity|].
  rewrite enumerate_cons. cbn [loop_verdict]. unfold plane_verdict.
  destruct (plane_state pe) as [[fb_id crtc_id]|]; [|reflexivity].
  cbv zeta.
  destruct ((fb_id =? 0) || (crtc_id =? 0)); [apply IH|].
  destruct (fb2_result pe) as [fb2|]; [|reflexivity].
  destruct (negb (fits_filename png_fn i)); [reflexivity|].
  destruct (save_png_result fb2 pe <? 0); [reflexivity | apply IH].
Qed.

(** Every buffer that is resolved is the buffer of an active plane. *)
Lemma enumerate_getfb2 (drm_fd : Z) (png_fn : string)
    (pls : list plane_env) :
  forall i t fd id ok,
    In (GetFB2 fd id ok) (calls (enumerate drm_fd png_fn pls i t)) ->
    exists pe crtc_id,
      In pe pls /\ plane_state pe = Some (id, crtc_id) /\
      id <> 0 /\ crtc_id <> 0.
Proof.
  assert (Hsave : forall fb2 i pe t fd id ok,
             ~ In (GetFB2 fd id ok)
                 (calls (save_png fb2 drm_fd png_fn i pe t))).
  { intros fb2 i pe t fd id ok Hin.
    pose proof (save_png_kinds fb2 drm_fd png_fn i pe t) as Hk.
    rewrite forallb_forall in Hk. apply Hk in Hin. discriminate. }
  induction pls as [|pe pls IH]; intros i t fd id ok; [intros []|].
  rewrite enumerate_cons.
  assert (Hrest : In (GetFB2 fd id ok)
                    (calls (enumerate drm_fd png_fn pls (u32 (i + 1)) t)) ->
                  exists pe0 crtc_id,
                    In pe0 (pe :: pls) /\ plane_state pe0 = Some (id, crtc_id)
                    /\ id <> 0 /\ crtc_id <> 0).
  { intros Hin. destruct (IH _ _ _ _ _ Hin) as [pe0 [c [H1 H2]]].
    exists pe0, c. split; [right; exact H1 | exact H2]. }
  destruct (plane_state pe) as [[fb_id crtc_id]|] eqn:Hst.
  2:{ intros [Heq | []]. discriminate. }
  cbv zeta.
  destruct ((fb_id =? 0) || (crtc_id =? 0)) eqn:Hact.
  { cbn [calls snd app In].
    intros [Heq | [Heq | Hin]]; [discriminate | discriminate | auto]. }
  apply orb_false_iff in Hact. destruct Hact as [Hf Hc].
  apply Z.eqb_neq in Hf. apply Z.eqb_neq in Hc.
  assert (Hthis : GetFB2 drm_fd fb_id true = GetFB2 fd id ok \/
                  GetFB2 drm_fd fb_id false = GetFB2 fd id ok ->
                  exists pe0 crtc_id0,
                    In pe0 (pe :: pls) /\ plane_state pe0 = Some (id, crtc_id0)
                    /\ id <> 0 /\ crtc_id0 <> 0).
  { intros [Heq | Heq]; injection Heq as _ <- _;
      exists pe, crtc_id; (split; [left; reflexivity | auto]). }
  destruct (fb2_result pe) as [fb2|].
  2:{ cbn [calls snd In].
      intros [Heq | [Heq | [Heq | [Heq | []]]]];
        [discriminate | discriminate | auto | discriminate]. }
  destruct (negb (fits_filename png_fn i)).
  { cbn [calls snd In].
    intros [Heq | [Heq | [Heq | []]]]; [discriminate | discriminate | auto]. }
  destruct (save_png_result fb2 pe <? 0); cbn [calls snd app In];
    intros [Heq | [Heq | [Heq | Hin]]];
    try discriminate; auto;
    apply in_app_or in Hin; destruct Hin as [Hin | Hin];
    try (exfalso; exact (Hsave _ _ _ _ _ _ _ Hin)); auto.
  destruct Hin as [Heq | []]. discriminate.
Qed.

(** ** Device locator *)

Lemma probe_nil (card : Z) (t : fdtable) :
  probe [] card t = (None, t, [Open (card_path card) (-1); open_failed]).
Proof. reflexivity. Qed.

(** One turn of the loop of lines 130-144. *)
Lemma probe_cons (c : card_env) (cs : list card_env) (card : Z)
    (t : fdtable) :
  probe (c :: cs) card t =
  let buf := card_path card in
  let fd := lowest_free t in
  if openable c
  then
    if capable c
    then (Some (fd, buf), (fd, Node buf) :: t,
          [Open buf fd; GetCap fd DRM_CAP_DUMB_BUFFER (cap_ret c)])
    else
      let rest := probe cs (u32 (card + 1)) t in
      (value rest, table rest,
       [Open buf fd; GetCap fd DRM_CAP_DUMB_BUFFER (cap_ret c); Close fd]
       ++ calls rest)
  else (None, t, [Open buf (-1); open_failed]).
Proof.
  cbn [probe]. cbv zeta. rewrite bind_run. unfold sys_open, capable.
  destruct (openable c); [|reflexivity].
  cbn [value table calls fst snd].
  rewrite lowest_free_ltb. rewrite bind_emit.
  destruct ((cap_ret c >=? 0) && negb (has_dumb c =? 0)); [reflexivity|].
  rewrite bind_run. unfold sys_close.
  cbn [value table calls fst snd]. rewrite remove_fd_head. reflexivity.
Qed.

Lemma probe_found (cs : list card_env) :
  forall card t fd buf,
    value (probe cs card t) = Some (fd, buf) ->
    fd = lowest_free t /\
    table (probe cs card t) = (fd, Node buf) :: t /\
    exists rejected r,
      calls (probe cs card t)
      = rejected ++ [Open buf fd; GetCap fd DRM_CAP_DUMB_BUFFER r] /\
      probe_rejects rejected = true.
Proof.
  induction cs as [|c cs IH]; intros card t fd buf; [discriminate|].
  rewrite probe_cons. cbv zeta.
  destruct (openable c); [|discriminate].
  destruct (capable c).
  - cbn [value table calls fst snd]. intros Heq. injection Heq as <- <-.
    split; [reflexivity|]. split; [reflexivity|].
    exists [], (cap_ret c). split; reflexivity.
  - cbn [value table calls fst snd]. intros Hv.
    destruct (IH _ _ _ _ Hv) as [Hfd [Ht [rejected [r [Hc Hr]]]]].
    split; [exact Hfd|]. split; [exact Ht|].
    exists ([Open (card_path card) (lowest_free t);
             GetCap (lowest_free t) DRM_CAP_DUMB_BUFFER (cap_ret c);
             Close (lowest_free t)] ++ rejected), r.
    split.
    + rewrite Hc, <- app_assoc. reflexivity.
    + cbn [app probe_rejects]. rewrite Z.eqb_refl, Hr. reflexivity.
Qed.

Lemma probe_value (cs : list card_env) :
  forall card t,
    match value (probe cs card t) with
    | Some _ => probe_finds cs = true
    | None => probe_finds cs = false /\ table (probe cs card t) = t
    end.
Proof.
  induction cs as [|c cs IH]; intros card t; [split; reflexivity|].
  rewrite probe_cons. cbv zeta. cbn [probe_finds].
  destruct (openable c); [|split; reflexivity].
  destruct (capable c); [reflexivity|].
  cbn [value table fst snd andb orb]. apply IH.
Qed.

Lemma probe_no_enumeration (cs : list card_env) :
  forall card t, filter is_enumeration (calls (probe cs card t)) = [].
Proof.
  induction cs as [|c cs IH]; intros card t; [reflexivity|].
  rewrite probe_cons. cbv zeta.
  destruct (openable c); [|reflexivity].
  destruct (capable c); [reflexivity|].
  cbn [calls snd app filter is_enumeration]. apply IH.
Qed.

(** The locator, when the probe loop has accepted a node. *)
Lemma locate_eq (w : world) (t : fdtable) :
  locate w t =
  let found := probe (cards w) 0 t in
  match value found with
  | None => (None, table found, calls found)
  | Some (_, buf) =>
      if reopen_ok w
      then (Some (lowest_free (table found)),
            (lowest_free (table found), Node buf) :: table found,
            calls found ++ [Open buf (lowest_free (table found))])
      else (None, table found, calls found ++ [Open buf (-1); open_failed])
  end.
Proof.
  unfold locate. rewrite bind_run. cbv zeta.
  destruct (value (probe (cards w) 0 t)) as [[fd buf]|].
  - rewrite bind_run. unfold sys_open.
    destruct (reopen_ok w); cbn [value table calls fst snd].
    + rewrite lowest_free_ltb. reflexivity.
    + reflexivity.
  - cbn [ret value table calls fst snd]. rewrite app_nil_r. reflexivity.
Qed.

Lemma locate_value (w : world) (t : fdtable) :
  match value (locate w t) with
  | Some _ => device_opened w = true
  | None => device_opened w = false
  end.
Proof.
  rewrite locate_eq. cbv zeta. unfold device_opened.
  pose proof (probe_value (cards w) 0 t) as Hp.
  destruct (value (probe (cards w) 0 t)) as [[fd buf]|].
  - rewrite Hp. destruct (reopen_ok w); reflexivity.
  - destruct Hp as [-> _]. reflexivity.
Qed.

Lemma locate_no_enumeration (w : world) (t : fdtable) :
  filter is_enumeration (calls (locate w t)) = [].
Proof.
  rewrite locate_eq. cbv zeta.
  pose proof (probe_no_enumeration (cards w) 0 t) as Hp.
  destruct (value (probe (cards w) 0 t)) as [[fd buf]|];
    [|exact Hp].
  destruct (reopen_ok w); cbn [calls snd]; rewrite filter_app, Hp;
    reflexivity.
Qed.

(** ** The driver *)

Lemma leave_value (w : world) (drm_fd : Z) (l : label) (retval : Z)
    (t : fdtable) :
  value (leave w drm_fd l retval t) = leave_status w l retval.
Proof.
  unfold leave, leave_status, unwind, when.
  destruct l; cbn [depth Nat.leb andb];
    destruct (fb_indeterminate w =? 0); reflexivity.
Qed.


Lemma leave_no_getfb2 (w : world) (drm_fd : Z) (l : label) (retval : Z)
    (t : fdtable) :
  filter is_getfb2 (calls (leave w drm_fd l retval t)) = [].
Proof.
  unfold leave, unwind, when.
  destruct l; cbn [depth Nat.leb andb];
    destruct (fb_indeterminate w =? 0); reflexivity.
Qed.

Lemma capture_value (w : world) (drm_fd : Z) (t : fdtable) :
  value (capture w drm_fd t) = capture_status w.
Proof.
  unfold capture, capture_status. rewrite bind_emit. cbn [value fst].
  destruct (negb (atomic_ret w =? 0)).
  { rewrite bind_emit. cbn [value fst]. apply leave_value. }
  rewrite bind_emit. cbn [value fst].
  destruct (negb (universal_ret w =? 0)).
  { rewrite bind_emit. cbn [value fst]. apply leave_value. }
  destruct (plane_resources w) as [pls|].
  - rewrite bind_emit. cbn [value fst]. rewrite value_bind.
    rewrite enumerate_value.
    destruct (loop_verdict (argv1 w) 0 pls);
      try reflexivity; apply leave_value.
  - rewrite !bind_emit. cbn [value fst]. apply leave_value.
Qed.


Lemma main_value (w : world) : value (run w) = main_status w.
Proof.
  unfold run, main, main_status.
  destruct (argc w <? 2). { rewrite bind_emit. reflexivity. }
  rewrite value_bind.
  pose proof (locate_value w stdio) as Hl.
  destruct (value (locate w stdio)) as [drm_fd|]; rewrite Hl.
  - apply capture_value.
  - reflexivity.
Qed.






(** ** Absent planes, failed mappings and writes *)

Lemma mem_plane_no_fopen (fb2 : drmModeFB2) (drm_fd : Z) (e : mem_env)
    (p : Z) (st : Z * Z) (t : fdtable) :
  filter is_fopen (calls (mem_plane fb2 drm_fd e p st t)) = [].
Proof.
  destruct st as [ret0 fd0]. rewrite mem_plane_eq. cbv zeta.
  destruct (get4 (handles fb2) p =? 0); [reflexivity|].
  destruct (export_ret e <? 0); [reflexivity|].
  destruct (map_errno e); reflexivity.
Qed.

Lemma planes_no_fopen (fb2 : drmModeFB2) (drm_fd : Z) (pe : plane_env)
    (t : fdtable) (ps : list Z) :
  filter is_fopen
    (flat_map (fun p => calls (mem_plane fb2 drm_fd (get4 (mem pe) p) p
                                 (0, 0) t)) ps) = [].
Proof.
  induction ps as [|p ps IH]; [reflexivity|].
  cbn [flat_map]. rewrite filter_app, mem_plane_no_fopen, IH. reflexivity.
Qed.

Lemma planes_exports (fb2 : drmModeFB2) (drm_fd : Z) (pe : plane_env)
    (t : fdtable) (ps : list Z) (d h r : Z) :
  In (PrimeHandleToFD d h r)
    (flat_map (fun p => calls (mem_plane fb2 drm_fd (get4 (mem pe) p) p
                                 (0, 0) t)) ps) ->
  exists q, In q ps /\ h = get4 (handles fb2) q /\ h <> 0.
Proof.
  intros Hin. apply in_flat_map in Hin. destruct Hin as [q [Hq Hin]].
  exists q. split; [exact Hq|]. exact (mem_plane_exports _ _ _ _ _ _ _ _ _ Hin).
Qed.

Lemma planes_counts (fb2 : drmModeFB2) (drm_fd : Z) (pe : plane_env)
    (t : fdtable) (ps : list Z) :
  let c := flat_map (fun p => calls (mem_plane fb2 drm_fd (get4 (mem pe) p) p
                                       (0, 0) t)) ps in
  (List.length (filter is_fwrite c) <= List.length (filter is_mmap c))%nat /\
  (List.length (filter is_mmap c) <= List.length (filter is_export c))%nat /\
  (List.length (filter is_export c)
   <= List.length (filter (fun p => negb (get4 (handles fb2) p =? 0)%Z) ps))%nat.
Proof.
  cbv zeta. induction ps as [|p ps IH]; [cbn; lia|].
  cbn [flat_map filter]. rewrite !filter_app, !length_app.
  pose proof (mem_plane_counts fb2 drm_fd (get4 (mem pe) p) p (0, 0) t) as Hc.
  cbv zeta in Hc.
  destruct (get4 (handles fb2) p =? 0); cbn [negb List.length]; lia.
Qed.

(** C8, as the code has it.  For every buffer descriptor and every memory
    plane index [p] of 0 to 3 whose handle is 0: the turn of the loop for
    [p] makes no call at all and leaves everything as it is, so the plane is
    not exported, not mapped and nothing is written for it; the loop does
    the same as the loop over the present planes alone, of which [p] is
    none; every handle that [save_png] exports is the non-zero handle of a
    present plane, and there are at most as many writes as mappings,
    mappings as exports and exports as present planes (three at most).
    Output files go by display plane, not by memory plane: when the name
    fits, [save_png] opens the one file named after the display plane
    before it looks at any handle, whatever the handles are. *)
Theorem absent_memory_plane_untouched (fb2 : drmModeFB2) (drm_fd : Z)
    (png_fn : string) (plane : Z) (pe : plane_env) (t : fdtable) (p : Z)
    (Hp : In p [0; 1; 2; 3]) (Hh : get4 (handles fb2) p = 0) :
  (forall st t',
     mem_plane fb2 drm_fd (get4 (mem pe) p) p st t' = (st, t', [])) /\
  (~ In p (present fb2) /\
   forall st t',
     mem_planes fb2 drm_fd pe [0; 1; 2; 3] st t'
     = mem_planes fb2 drm_fd pe (present fb2) st t') /\
  (forall d h r,
     In (PrimeHandleToFD d h r)
       (calls (save_png fb2 drm_fd png_fn plane pe t)) ->
     h <> 0 /\ exists q, In q (present fb2) /\ q <> p /\
                         h = get4 (handles fb2) q) /\
  (List.length (filter is_fwrite
                  (calls (save_png fb2 drm_fd png_fn plane pe t)))
   <= List.length (filter is_mmap
                     (calls (save_png fb2 drm_fd png_fn plane pe t))))%nat /\
  (List.length (filter is_mmap
                  (calls (save_png fb2 drm_fd png_fn plane pe t)))
   <= List.length (filter is_export
                     (calls (save_png fb2 drm_fd png_fn plane pe t))))%nat /\
  (List.length (filter is_export
                  (calls (save_png fb2 drm_fd png_fn plane pe t)))
   <= List.length (present fb2))%nat /\
  (List.length (present fb2) <= 3)%nat /\
  filter is_fopen (calls (save_png fb2 drm_fd png_fn plane pe t))
  = if fits_filename png_fn plane
    then [Fopen (output_name png_fn plane)
            match fopen_errno pe with Some _ => false | None => true end]
    else [].
Proof.
  assert (Hnot : ~ In p (present fb2)).
  { unfold present. rewrite filter_In. intros [_ Hnz].
    rewrite Hh in Hnz. discriminate. }
  split; [intros st t'; apply mem_plane_absent; exact Hh|].
  split; [split; [exact Hnot | intros st t'; apply mem_planes_present]|].
  split.
  { intros d h r. rewrite save_png_eq.
    destruct (fits_filename png_fn plane); [|intros []].
    destruct (fopen_errno pe).
    - intros [Heq | [Heq | []]]; discriminate.
    - cbn [calls snd In]. intros [Heq | Hin]; [discriminate|].
      apply in_app_or in Hin. destruct Hin as [Hin | [Heq | []]];
        [|discriminate].
      apply planes_exports in Hin. destruct Hin as [q [Hq [Hhq Hnz]]].
      split; [exact Hnz|]. exists q.
      assert (Hpres : In q (present fb2)).
      { unfold present. apply filter_In. split; [exact Hq|].
        rewrite <- Hhq. apply negb_true_iff. apply Z.eqb_neq. exact Hnz. }
      split; [exact Hpres|]. split; [|exact Hhq].
      intros ->. exact (Hnot Hpres). }
  assert (Hthree : (List.length (present fb2) <= 3)%nat).
  { unfold present.
    destruct Hp as [<- | [<- | [<- | [<- | []]]]]; cbn [filter];
      rewrite Hh; cbn [Z.eqb negb];
      repeat match goal with
             | |- context [get4 (handles fb2) ?q =? 0] =>
                 destruct (get4 (handles fb2) q =? 0)
             end; cbn; lia. }
  rewrite save_png_eq.
  destruct (fits_filename png_fn plane).
  2:{ cbn [calls snd filter List.length]. repeat split; try lia;
        exact Hthree. }
  destruct (fopen_errno pe).
  { cbn [calls snd filter is_fwrite is_mmap is_export is_fopen List.length].
    repeat split; try lia; exact Hthree. }
  cbn [calls snd filter is_fwrite is_mmap is_export is_fopen].
  rewrite !filter_app, planes_no_fopen.
  cbn [filter is_fwrite is_mmap is_export is_fopen app].
  rewrite !app_nil_r.
  pose proof (planes_counts fb2 drm_fd pe
                ((lowest_free t, Regular (output_name png_fn plane)) :: t)
                [0; 1; 2; 3]) as Hc.
  cbv zeta in Hc. fold (present fb2) in Hc.
  repeat split; try lia; exact Hthree.
Qed.

Lemma absent_memory_plane_untouched_witness :
  filter is_export
    (calls (save_png Scenario.fb2_sparse 4 "shot" 0 (Scenario.plane_sparse 31)
              stdio))
  = [PrimeHandleToFD 4 7 0; PrimeHandleToFD 4 9 0] /\
  mem_plane Scenario.fb2_sparse 4 Scenario.mem_ok 1 (0, 0) stdio
  = ((0, 0), stdio, []).
Proof.
  split; [vm_compute; reflexivity|].
  apply (absent_memory_plane_untouched Scenario.fb2_sparse 4 "shot" 0
           (Scenario.plane_sparse 31) stdio 1).
  - simpl. auto.
  - reflexivity.
Defined.

(** C8, against the specification: for display plane 0 with a buffer whose four
    handles are 0, among them the handle of index 0, the file of index 0 is
    still created, and it stays empty. *)
Lemma file_created_without_handles :
  get4 (handles Scenario.fb2_empty) 0 = 0 /\
  calls (save_png Scenario.fb2_empty 4 "shot" 0 (Scenario.plane_empty 31)
           stdio)
  = [Fopen "shot-0.raw" true; Fclose "shot-0.raw"].
Proof. split; vm_compute; reflexivity. Qed.

Lemma save_png_result_failed (fb2 : drmModeFB2) (pe : plane_env) (p : Z) :
  fopen_errno pe = None ->
  In p [0; 1; 2; 3] ->
  map_fails_at fb2 pe p = true ->
  save_png_result fb2 pe < 0.
Proof.
  intros Hopen Hp Hfail. unfold save_png_result. rewrite Hopen.
  apply ret_after_failed. apply existsb_exists. exists p. auto.
Qed.

(** C2, as the code has it.  When the mapping of memory plane [p] of an
    active display plane whose file name fits fails, the turn of the loop
    for [p] records the
    error (the message is printed and [ret] becomes the negated [errno]),
    closes the exported descriptor and leaves the descriptor table as it
    found it; the loop makes for every memory plane the calls it makes
    without the failure.  The failure is not absorbed: [save_png] returns
    the negative value, the loop over the display planes is left at this
    plane for the label [out_close_prime_fd] without a call for any later
    display plane, and [main] goes through the labels from there: it
    returns [EXIT_FAILURE] when the pointer found in [fb] is null, and
    comes to the [free] of that pointer when it is not. *)
Theorem map_failure_ends_the_run (fb2 : drmModeFB2) (drm_fd : Z)
    (png_fn : string) (i : Z) (pe : plane_env) (pls : list plane_env)
    (t : fdtable) (p fb_id crtc_id : Z)
    (Hstate : plane_state pe = Some (fb_id, crtc_id))
    (Hactive : fb_id <> 0 /\ crtc_id <> 0)
    (Hfb2 : fb2_result pe = Some fb2)
    (Hfits : fits_filename png_fn i = true)
    (Hopen : fopen_errno pe = None)
    (Hp : In p [0; 1; 2; 3])
    (Hfail : map_fails_at fb2 pe p = true) :
  (exists errno,
     map_errno (get4 (mem pe) p) = Some errno /\
     forall ret0 fd0 t',
       mem_plane fb2 drm_fd (get4 (mem pe) p) p (ret0, fd0) t'
       = ((- Z.pos errno, lowest_free t'), t',
          [PrimeHandleToFD drm_fd (get4 (handles fb2) p)
             (export_ret (get4 (mem pe) p));
           Mmap (map_size fb2 p) (lowest_free t') false;
           Stderr ("Unable to mmap prime buffer plane " ++ decimal p);
           Close (lowest_free t')])) /\
  (forall ps st t',
     table (mem_planes fb2 drm_fd pe ps st t') = t' /\
     calls (mem_planes fb2 drm_fd pe ps st t')
     = flat_map (fun q => calls (mem_plane fb2 drm_fd (get4 (mem pe) q) q
                                   (0, 0) t')) ps) /\
  (exists err,
     value (save_png fb2 drm_fd png_fn i pe t) = Some err /\ err < 0) /\
  enumerate drm_fd png_fn (pe :: pls) i t
  = (Goto out_close_prime_fd, t,
     [GetPlane drm_fd (plane_id pe) true; FreePlane;
      GetFB2 drm_fd fb_id true]
     ++ calls (save_png fb2 drm_fd png_fn i pe t)
     ++ [Stderr "Failed to take screenshot"]) /\
  (forall w,
     2 <= argc w -> device_opened w = true -> caps_enabled w = true ->
     plane_resources w = Some (pe :: pls) -> argv1 w = png_fn -> i = 0 ->
     value (run w)
     = if fb_indeterminate w =? 0 then Exit EXIT_FAILURE else Fault).
Proof.
  pose proof (save_png_result_failed fb2 pe p Hopen Hp Hfail) as Hneg.
  assert (Hltb : (save_png_result fb2 pe <? 0) = true)
    by (apply Z.ltb_lt; exact Hneg).
  assert (Hor : (fb_id =? 0) || (crtc_id =? 0) = false).
  { destruct Hactive as [Hf Hc]. apply orb_false_iff.
    split; apply Z.eqb_neq; assumption. }
  split.
  { unfold map_fails_at in Hfail.
    apply andb_true_iff in Hfail. destruct Hfail as [Hfail Hmap].
    apply andb_true_iff in Hfail. destruct Hfail as [Hh He].
    apply negb_true_iff in Hh.
    assert (He' : (export_ret (get4 (mem pe) p) <? 0) = false) by lia.
    destruct (map_errno (get4 (mem pe) p)) as [errno|] eqn:Hm;
      [|discriminate].
    exists errno. split; [reflexivity|].
    intros ret0 fd0 t'. rewrite mem_plane_eq. cbv zeta.
    rewrite Hh, He', Hm. reflexivity. }
  split.
  { intros ps st t'. split;
      [apply mem_planes_table | apply mem_planes_calls]. }
  split.
  { exists (save_png_result fb2 pe). split; [|exact Hneg].
    rewrite save_png_value, Hfits. reflexivity. }
  split.
  { rewrite enumerate_cons, Hstate. cbv zeta.
    rewrite Hor, Hfb2, Hfits, Hltb. reflexivity. }
  intros w Hargc Hdev Hcaps Hres Hname Hi. subst png_fn i.
  rewrite main_value. unfold main_status.
  replace (argc w <? 2) with false by lia.
  rewrite Hdev. unfold capture_status.
  unfold caps_enabled in Hcaps. apply andb_true_iff in Hcaps.
  destruct Hcaps as [-> ->]. cbn [negb].
  rewrite Hres. cbn [loop_verdict]. unfold plane_verdict.
  rewrite Hstate, Hor, Hfb2, Hfits, Hltb. cbn [negb].
  unfold leave_status. cbn [depth Nat.leb andb].
  destruct (fb_indeterminate w =? 0); reflexivity.
Qed.

Lemma map_failure_ends_the_run_witness :
  enumerate 4 "shot"
    [Scenario.plane_map_fails 31; Scenario.plane_ok 32] 0 stdio
  = (Goto out_close_prime_fd, stdio,
     [GetPlane 4 31 true; FreePlane; GetFB2 4 5 true]
     ++ calls (save_png Scenario.fb2_single 4 "shot" 0
                 (Scenario.plane_map_fails 31) stdio)
     ++ [Stderr "Failed to take screenshot"]).
Proof.
  apply (map_failure_ends_the_run Scenario.fb2_single 4 "shot" 0
           (Scenario.plane_map_fails 31) [Scenario.plane_ok 32] stdio
           0 5 6).
  - reflexivity.
  - split; discriminate.
  - reflexivity.
  - reflexivity.
  - reflexivity.
  - simpl. auto.
  - reflexivity.
Defined.

(** C2, against the specification: on a machine with two active display planes of
    which the first has a memory plane that cannot be mapped, the second
    display plane is never queried and the process exits with
    [EXIT_FAILURE]. *)
Lemma map_failure_is_fatal :
  value (run (Scenario.machine
                [Scenario.plane_map_fails 31; Scenario.plane_ok 32]))
  = Exit EXIT_FAILURE /\
  filter is_plane_query
    (calls (run (Scenario.machine
                   [Scenario.plane_map_fails 31; Scenario.plane_ok 32])))
  = [GetPlane 4 31 true].
Proof. split; vm_compute; reflexivity. Qed.

(** *** What [fwrite] returns *)

Lemma with_write_items_mem (f : Z -> Z) (pe : plane_env) (p : Z) :
  export_ret (get4 (mem (with_write_items f pe)) p)
  = export_ret (get4 (mem pe) p) /\
  map_errno (get4 (mem (with_write_items f pe)) p)
  = map_errno (get4 (mem pe) p).
Proof.
  unfold with_write_items, get4. cbn [mem a0 a1 a2 a3].
  destruct (p =? 0); [split; reflexivity|].
  destruct (p =? 1); [split; reflexivity|].
  destruct (p =? 2); split; reflexivity.
Qed.

Lemma mem_plane_forget (fb2 : drmModeFB2) (drm_fd : Z) (e e' : mem_env)
    (p : Z) (st : Z * Z) (t : fdtable) :
  export_ret e = export_ret e' ->
  map_errno e = map_errno e' ->
  map forget_items (calls (mem_plane fb2 drm_fd e p st t))
  = map forget_items (calls (mem_plane fb2 drm_fd e' p st t)).
Proof.
  intros He Hm. destruct st as [ret0 fd0]. rewrite !mem_plane_eq. cbv zeta.
  rewrite He, Hm.
  destruct (get4 (handles fb2) p =? 0); [reflexivity|].
  destruct (export_ret e' <? 0); [reflexivity|].
  destruct (map_errno e'); reflexivity.
Qed.

Lemma ret_after_write_items (fb2 : drmModeFB2) (f : Z -> Z) (pe : plane_env)
    (ps : list Z) :
  forall ret0,
    ret_after fb2 (with_write_items f pe) ps ret0 = ret_after fb2 pe ps ret0.
Proof.
  induction ps as [|p ps IH]; intros ret0; [reflexivity|].
  cbn [ret_after]. unfold map_fails_at.
  destruct (with_write_items_mem f pe p) as [-> ->]. apply IH.
Qed.

Lemma planes_forget (fb2 : drmModeFB2) (drm_fd : Z) (f : Z -> Z)
    (pe : plane_env) (t : fdtable) (ps : list Z) :
  map forget_items
    (flat_map (fun p => calls (mem_plane fb2 drm_fd
                                 (get4 (mem (with_write_items f pe)) p) p
                                 (0, 0) t)) ps)
  = map forget_items
      (flat_map (fun p => calls (mem_plane fb2 drm_fd (get4 (mem pe) p) p
                                   (0, 0) t)) ps).
Proof.
  induction ps as [|p ps IH]; [reflexivity|].
  cbn [flat_map]. rewrite !map_app, IH. f_equal.
  destruct (with_write_items_mem f pe p) as [He Hm].
  apply mem_plane_forget; assumption.
Qed.

(** C5, what the code does.  What [fwrite] returns is never looked at:
    whatever item counts the writes of a display plane return, [save_png]
    returns the same value, leaves the same descriptor table and makes the
    same calls with the same arguments; when the name of the file fits,
    its result is the negated [errno] of a failed [fopen], else that of the
    last failed mapping, else the value [ret] started with. *)
Theorem write_outcome_is_ignored (fb2 : drmModeFB2) (drm_fd : Z)
    (png_fn : string) (plane : Z) (pe : plane_env) (t : fdtable)
    (f : Z -> Z) :
  value (save_png fb2 drm_fd png_fn plane (with_write_items f pe) t)
  = value (save_png fb2 drm_fd png_fn plane pe t) /\
  table (save_png fb2 drm_fd png_fn plane (with_write_items f pe) t)
  = table (save_png fb2 drm_fd png_fn plane pe t) /\
  map forget_items
    (calls (save_png fb2 drm_fd png_fn plane (with_write_items f pe) t))
  = map forget_items (calls (save_png fb2 drm_fd png_fn plane pe t)) /\
  value (save_png fb2 drm_fd png_fn plane pe t)
  = (if fits_filename png_fn plane then Some (save_png_result fb2 pe)
     else None).
Proof.
  split; [|split; [|split]].
  - rewrite !save_png_value. unfold save_png_result.
    change (fopen_errno (with_write_items f pe)) with (fopen_errno pe).
    change (ret_indeterminate (with_write_items f pe))
      with (ret_indeterminate pe).
    rewrite ret_after_write_items. reflexivity.
  - rewrite !save_png_table. reflexivity.
  - rewrite !save_png_eq.
    change (fopen_errno (with_write_items f pe)) with (fopen_errno pe).
    destruct (fits_filename png_fn plane); [|reflexivity].
    destruct (fopen_errno pe); [reflexivity|].
    cbn [calls snd map forget_items]. rewrite !map_app, planes_forget.
    reflexivity.
  - apply save_png_value.
Qed.

(** C5, the failing run: the write of the only memory plane returns 0
    items; the call is made, and the result of the plane and the outcome
    of the process are the ones they are when the item is written. *)
Lemma write_failure_not_reported :
  filter is_fwrite
    (calls (save_png Scenario.fb2_single 4 "shot" 0
              (Scenario.plane_write_fails 31) stdio))
  = [Fwrite 16 0] /\
  value (save_png Scenario.fb2_single 4 "shot" 0
           (Scenario.plane_write_fails 31) stdio)
  = value (save_png Scenario.fb2_single 4 "shot" 0
             (Scenario.plane_ok 31) stdio) /\
  value (run (Scenario.machine [Scenario.plane_write_fails 31]))
  = value (run (Scenario.machine [Scenario.plane_ok 31])).
Proof. repeat split; vm_compute; reflexivity. Qed.

(** ** Enumeration, location and the exit status *)

Lemma capture_getfb2 (w : world) (drm_fd : Z) (t : fdtable) :
  filter is_getfb2 (calls (capture w drm_fd t))
  = if caps_enabled w
    then filter is_getfb2
           (calls (enumerate drm_fd (argv1 w) (listed_planes w) 0 t))
    else [].
Proof.
  unfold capture, caps_enabled, listed_planes.
  rewrite bind_emit. cbn [calls snd filter is_getfb2].
  destruct (atomic_ret w =? 0); cbn [negb andb].
  2:{ rewrite bind_emit. cbn [calls snd filter is_getfb2].
      apply leave_no_getfb2. }
  rewrite bind_emit. cbn [calls snd filter is_getfb2].
  destruct (universal_ret w =? 0); cbn [negb].
  2:{ rewrite bind_emit. cbn [calls snd filter is_getfb2].
      apply leave_no_getfb2. }
  destruct (plane_resources w) as [pls|].
  - rewrite bind_emit. cbn [calls snd filter is_getfb2].
    rewrite calls_bind, filter_app.
    destruct (value (enumerate drm_fd (argv1 w) pls 0 t));
      rewrite ?leave_no_getfb2; cbn [ret calls snd filter];
      rewrite app_nil_r; reflexivity.
  - rewrite !bind_emit. cbn [calls snd filter is_getfb2].
    apply leave_no_getfb2.
Qed.

(** In a whole run, every buffer that is resolved is the buffer of an
    active plane. *)
Lemma run_getfb2 (w : world) (fd id : Z) (ok : bool) :
  In (GetFB2 fd id ok) (calls (run w)) ->
  exists pe crtc_id,
    In pe (listed_planes w) /\ plane_state pe = Some (id, crtc_id) /\
    id <> 0 /\ crtc_id <> 0.
Proof.
  unfold run, main.
  destruct (argc w <? 2).
  { rewrite bind_emit. intros [Heq | []]. discriminate. }
  rewrite calls_bind. intros Hin. apply in_app_or in Hin.
  destruct Hin as [Hin | Hin].
  { exfalso.
    assert (Hf : In (GetFB2 fd id ok)
                   (filter is_enumeration (calls (locate w stdio))))
      by (apply filter_In; split; [exact Hin | reflexivity]).
    rewrite locate_no_enumeration in Hf. exact Hf. }
  destruct (value (locate w stdio)) as [drm_fd|]; [|destruct Hin].
  assert (Hf : In (GetFB2 fd id ok)
                 (filter is_getfb2
                    (calls (capture w drm_fd (table (locate w stdio))))))
    by (apply filter_In; split; [exact Hin | reflexivity]).
  rewrite capture_getfb2 in Hf.
  destruct (caps_enabled w); [|destruct Hf].
  apply filter_In in Hf. destruct Hf as [Hf _].
  exact (enumerate_getfb2 _ _ _ _ _ _ _ _ Hf).
Qed.

(** C9.  A display plane whose state query gives a buffer identifier of 0
    or a pipeline identifier of 0 is skipped: the only calls made for it are
    the query and the release of its state, no message is printed, the
    descriptor table is unchanged and the loop continues with the planes
    after it; when it is the only plane, [main] goes through all its labels
    and returns [EXIT_SUCCESS], unless the pointer found in [fb] is not
    null.  In every run, every buffer identifier passed to
    [drmModeGetFB2] is the non-zero buffer identifier of a listed plane
    whose pipeline identifier is non-zero too. *)
Theorem inactive_plane_is_skipped (drm_fd : Z) (png_fn : string)
    (pe : plane_env) (pls : list plane_env) (i : Z) (t : fdtable)
    (fb_id crtc_id : Z)
    (Hstate : plane_state pe = Some (fb_id, crtc_id))
    (Hinactive : fb_id = 0 \/ crtc_id = 0) :
  enumerate drm_fd png_fn (pe :: pls) i t
  = (value (enumerate drm_fd png_fn pls (u32 (i + 1)) t), t,
     [GetPlane drm_fd (plane_id pe) true; FreePlane]
     ++ calls (enumerate drm_fd png_fn pls (u32 (i + 1)) t)) /\
  (forall w fd id ok,
     In (GetFB2 fd id ok) (calls (run w)) ->
     exists pe' crtc_id',
       In pe' (listed_planes w) /\ plane_state pe' = Some (id, crtc_id') /\
       id <> 0 /\ crtc_id' <> 0) /\
  (forall w,
     2 <= argc w -> device_opened w = true -> caps_enabled w = true ->
     plane_resources w = Some [pe] ->
     value (run w)
     = (if fb_indeterminate w =? 0 then Exit EXIT_SUCCESS else Fault) /\
     filter is_getfb2 (calls (run w)) = []).
Proof.
  assert (Hor : (fb_id =? 0) || (crtc_id =? 0) = true).
  { apply orb_true_iff. destruct Hinactive as [-> | ->]; auto. }
  split.
  { rewrite enumerate_cons, Hstate. cbv zeta. rewrite Hor.
    rewrite enumerate_table. reflexivity. }
  split; [intros w fd id ok; apply run_getfb2|].
  intros w Hargc Hdev Hcaps Hres. split.
  - rewrite main_value. unfold main_status.
    replace (argc w <? 2) with false by lia.
    rewrite Hdev. unfold capture_status.
    unfold caps_enabled in Hcaps. apply andb_true_iff in Hcaps.
    destruct Hcaps as [-> ->]. cbn [negb]. rewrite Hres.
    cbn [loop_verdict]. unfold plane_verdict. rewrite Hstate, Hor.
    unfold leave_status. cbn [depth Nat.leb andb].
    destruct (fb_indeterminate w =? 0); reflexivity.
  - destruct (filter is_getfb2 (calls (run w))) as [|e l] eqn:Hf;
      [reflexivity|].
    exfalso.
    assert (Hin : In e (filter is_getfb2 (calls (run w))))
      by (rewrite Hf; left; reflexivity).
    apply filter_In in Hin. destruct Hin as [Hin He].
    destruct e; try discriminate.
    destruct (run_getfb2 _ _ _ _ Hin) as [pe' [c [Hp [Hs [Hn Hc]]]]].
    unfold listed_planes in Hp. rewrite Hres in Hp.
    destruct Hp as [<- | []]. rewrite Hstate in Hs.
    injection Hs as <- <-. destruct Hinactive; contradiction.
Qed.

Lemma inactive_plane_is_skipped_witness :
  enumerate 4 "shot" [Scenario.plane_inactive 30; Scenario.plane_ok 31] 0
    stdio
  = (value (enumerate 4 "shot" [Scenario.plane_ok 31] (u32 (0 + 1)) stdio),
     stdio,
     [GetPlane 4 30 true; FreePlane]
     ++ calls (enumerate 4 "shot" [Scenario.plane_ok 31] (u32 (0 + 1))
                 stdio)).
Proof.
  apply (inactive_plane_is_skipped 4 "shot" (Scenario.plane_inactive 30)
           [Scenario.plane_ok 31] 0 stdio 0 6).
  - reflexivity.
  - left. reflexivity.
Defined.

(** C4, what the code does: when [drmModeGetPlane] returns [NULL] for a
    plane, the next thing the loop does is read [plane->fb_id] through that
    pointer.  The plane is not skipped, no later plane is reached, and the
    process does not come to return a status. *)
Theorem failed_plane_query_is_dereferenced (drm_fd : Z) (png_fn : string)
    (pe : plane_env) (pls : list plane_env) (i : Z) (t : fdtable)
    (Hnull : plane_state pe = None) :
  enumerate drm_fd png_fn (pe :: pls) i t
  = (NullDereference, t, [GetPlane drm_fd (plane_id pe) false]) /\
  (forall w,
     2 <= argc w -> device_opened w = true -> caps_enabled w = true ->
     plane_resources w = Some (pe :: pls) ->
     value (run w) = Fault).
Proof.
  split.
  - rewrite enumerate_cons, Hnull. reflexivity.
  - intros w Hargc Hdev Hcaps Hres.
    rewrite main_value. unfold main_status.
    replace (argc w <? 2) with false by lia.
    rewrite Hdev. unfold capture_status.
    unfold caps_enabled in Hcaps. apply andb_true_iff in Hcaps.
    destruct Hcaps as [-> ->]. cbn [negb]. rewrite Hres.
    cbn [loop_verdict]. unfold plane_verdict. rewrite Hnull. reflexivity.
Qed.

Lemma failed_plane_query_is_dereferenced_witness :
  enumerate 4 "shot" [Scenario.plane_null 30; Scenario.plane_ok 31] 0 stdio
  = (NullDereference, stdio, [GetPlane 4 30 false]).
Proof.
  apply (failed_plane_query_is_dereferenced 4 "shot" (Scenario.plane_null 30)
           [Scenario.plane_ok 31] 0 stdio).
  reflexivity.
Defined.

(** C4, the failing run: the first of two planes cannot be queried; the
    second plane is never queried and the process is stopped before it
    returns from [main]. *)
Lemma failed_plane_query_stops_the_process :
  value (run (Scenario.machine [Scenario.plane_null 30; Scenario.plane_ok 31]))
  = Fault /\
  filter is_plane_query
    (calls (run (Scenario.machine
                   [Scenario.plane_null 30; Scenario.plane_ok 31])))
  = [GetPlane 4 30 false].
Proof. split; vm_compute; reflexivity. Qed.

(** C3, what the code does.  When the locator succeeds, it has added two
    descriptors to the table, both on the accepted node: the one the probe
    loop opened, which the [break] of line 141 leaves open and line 146
    forgets, and the one of the second [open], which the rest of [main]
    uses.  Before that, each rejected node was opened, asked for its
    capability and closed before the next node was opened. *)
Theorem locate_keeps_the_probe_descriptor (w : world) (t : fdtable)
    (drm_fd : Z) (Hfound : value (locate w t) = Some drm_fd) :
  exists probe_fd buf rejected r,
    probe_fd <> drm_fd /\
    table (locate w t) = (drm_fd, Node buf) :: (probe_fd, Node buf) :: t /\
    open_nodes (table (locate w t))
    = (drm_fd, buf) :: (probe_fd, buf) :: open_nodes t /\
    calls (locate w t)
    = rejected
      ++ [Open buf probe_fd; GetCap probe_fd DRM_CAP_DUMB_BUFFER r;
          Open buf drm_fd] /\
    probe_rejects rejected = true.
Proof.
  revert Hfound. rewrite locate_eq. cbv zeta.
  destruct (value (probe (cards w) 0 t)) as [[fd buf]|] eqn:Hv;
    [|discriminate].
  destruct (probe_found _ _ _ _ _ Hv) as [Hfd [Ht [rejected [r [Hc Hr]]]]].
  destruct (reopen_ok w); [|discriminate].
  cbn [value table calls fst snd]. intros Heq. injection Heq as <-.
  exists fd, buf, rejected, r.
  split.
  { intros Heq.
    pose proof (lowest_free_not_open (table (probe (cards w) 0 t))) as Hno.
    rewrite <- Heq, Ht in Hno. cbn [is_open existsb fst] in Hno.
    rewrite Z.eqb_refl in Hno. discriminate. }
  split; [rewrite Ht; reflexivity|].
  split; [rewrite Ht; reflexivity|].
  split; [|exact Hr].
  rewrite Hc, <- app_assoc. reflexivity.
Qed.

Lemma locate_keeps_the_probe_descriptor_witness :
  exists probe_fd buf rejected r,
    probe_fd <> 4 /\
    table (locate (Scenario.machine []) stdio)
    = (4, Node buf) :: (probe_fd, Node buf) :: stdio /\
    open_nodes (table (locate (Scenario.machine []) stdio))
    = (4, buf) :: (probe_fd, buf) :: open_nodes stdio /\
    calls (locate (Scenario.machine []) stdio)
    = rejected
      ++ [Open buf probe_fd; GetCap probe_fd DRM_CAP_DUMB_BUFFER r;
          Open buf 4] /\
    probe_rejects rejected = true.
Proof.
  apply (locate_keeps_the_probe_descriptor (Scenario.machine []) stdio 4).
  vm_compute. reflexivity.
Defined.

(** C3, the failing run: on a machine whose second node is accepted, the
    locator returns with two descriptors open on that node, and they are
    still two when the process has closed the one it knows. *)
Lemma locate_leaves_two_descriptors :
  open_nodes (table (locate (Scenario.machine []) stdio))
  = [(4, "/dev/dri/card1"); (3, "/dev/dri/card1")]%string /\
  calls (locate (Scenario.machine []) stdio)
  = [Open "/dev/dri/card0" 3; GetCap 3 DRM_CAP_DUMB_BUFFER 0; Close 3;
     Open "/dev/dri/card1" 3; GetCap 3 DRM_CAP_DUMB_BUFFER 0;
     Open "/dev/dri/card1" 4] /\
  open_nodes (table (run (Scenario.machine [])))
  = [(3, "/dev/dri/card1")]%string.
Proof. repeat split; vm_compute; reflexivity. Qed.

(** *** The exit status *)







(** * Further properties of the code *)

(** ** Pixel converter *)

(** X1.  [rgb32_to_24] does not look at the top byte of a pixel: a pixel
    and its low 24 bits give the same sample. *)
Theorem rgb32_to_24_ignores_top_byte (px : Z) :
  Pixel.rgb32_to_24 px = Pixel.rgb32_to_24 (px mod 2 ^ 24).
Proof.
  assert (Hlow : forall k, 0 <= k -> k + 8 <= 24 ->
            Z.land (Z.shiftr (px mod 2 ^ 24) k) 0xff
            = Z.land (Z.shiftr px k) 0xff).
  { intros k Hk Hk8. apply Z.bits_inj'. intros n Hn.
    rewrite !Z.land_spec, !Z.shiftr_spec by lia.
    destruct (Z_lt_ge_dec n 8) as [Hlt | Hge].
    - rewrite Z.mod_pow2_bits_low by lia. reflexivity.
    - change 0xff with (Z.ones 8). rewrite Z.ones_spec_high by lia.
      rewrite !andb_false_r. reflexivity. }
  unfold Pixel.rgb32_to_24.
  rewrite <- (Hlow 8), <- (Hlow 16) by lia.
  pose proof (Hlow 0 ltac:(lia) ltac:(lia)) as H0.
  rewrite !Z.shiftr_0_r in H0. rewrite <- H0. reflexivity.
Qed.

(** X2.  [rgb16_to_24] loses nothing: two different 16-bit pixels give
    different samples. *)
Theorem rgb16_to_24_injective (px py : Z)
    (Hpx : 0 <= px < 2 ^ 16) (Hpy : 0 <= py < 2 ^ 16) (Hne : px <> py) :
  Pixel.rgb16_to_24 px <> Pixel.rgb16_to_24 py.
Proof.
  assert (Hback : forall z, 0 <= z < 2 ^ 16 ->
            requantize (Pixel.rgb16_to_24 z) = z).
  { intros z Hz.
    pose proof (PixelFacts.all_bits_sound _ _ _ PixelFacts.rgb16_test_all z)
      as H.
    assert (Ht : rgb16_test z = true)
      by (apply H; change (2 ^ Z.of_nat 16) with (2 ^ 16); lia).
    unfold rgb16_test in Ht. cbv zeta in Ht.
    repeat rewrite andb_true_iff in Ht.
    destruct Ht as [[_ Hq] _]. apply Z.eqb_eq. exact Hq. }
  intros Heq. apply Hne.
  rewrite <- (Hback px Hpx), <- (Hback py Hpy), Heq. reflexivity.
Qed.

Lemma rgb16_to_24_injective_witness :
  Pixel.rgb16_to_24 0x0800 <> Pixel.rgb16_to_24 0x0020.
Proof.
  apply (rgb16_to_24_injective 0x0800 0x0020); [lia | lia | discriminate].
Defined.

(** X3.  With 16 bits per pixel, [convert_to_24] reads the region as 16-bit
    words in order: sample [i] is [rgb16_to_24] of the [i]-th word, for
    [width * height] (wrapped to 32 bits) samples, when the region holds
    that many words. *)
Theorem convert_to_24_16bpp (be : bool) (fb : Pixel.drmModeFB)
    (from : list byte)
    (Hbpp : Pixel.bpp fb = 16)
    (Hbuf : 2 * Pixel.pixel_count fb <= Z.of_nat (List.length from)) :
  exists out,
    Pixel.convert_to_24 be fb from = Some out /\
    Z.of_nat (List.length out) = Pixel.pixel_count fb /\
    forall i, (i < List.length out)%nat ->
      exists px, Pixel.load be 2 from i = Some px /\ 0 <= px < 2 ^ 16 /\
                 nth_error out i = Some (Pixel.rgb16_to_24 px).
Proof.
  pose proof (PixelFacts.pixel_count_range fb) as Hc.
  unfold Pixel.convert_to_24. rewrite Hbpp. cbn [Z.eqb Pos.eqb].
  destruct (PixelFacts.convert_loop_total (Pixel.load be 2 from)
              Pixel.rgb16_to_24 (Z.to_nat (Pixel.pixel_count fb)) 0%nat)
    as [out [Ho [Hl Hn]]].
  { intros j Hj.
    destruct (PixelFacts.load_inside be 2 from j) as [px [Hpx _]];
      [lia | eauto]. }
  exists out. split; [exact Ho|]. split; [lia|].
  intros i Hi. destruct (Hn i ltac:(lia)) as [px [Hpx Hnth]].
  cbn [Nat.add] in Hpx. exists px.
  destruct (PixelFacts.load_inside be 2 from i) as [q [Hq Hr]]; [lia|].
  rewrite Hpx in Hq. injection Hq as <-.
  change (8 * Z.of_nat 2) with 16 in Hr. auto.
Qed.

Lemma convert_to_24_16bpp_witness :
  exists out,
    Pixel.convert_to_24 false (Pixel.mk_fb 2 1 16) (repeat "A"%byte 4)
    = Some out /\
    Z.of_nat (List.length out) = Pixel.pixel_count (Pixel.mk_fb 2 1 16) /\
    forall i, (i < List.length out)%nat ->
      exists px, Pixel.load false 2 (repeat "A"%byte 4) i = Some px /\
                 0 <= px < 2 ^ 16 /\
                 nth_error out i = Some (Pixel.rgb16_to_24 px).
Proof.
  apply (convert_to_24_16bpp false (Pixel.mk_fb 2 1 16) (repeat "A"%byte 4)).
  - reflexivity.
  - vm_compute. discriminate.
Defined.

(** ** Buffer exporter/mapper *)

Lemma planes_closes (fb2 : drmModeFB2) (drm_fd : Z) (pe : plane_env)
    (t : fdtable) (ps : list Z) :
  List.length
    (filter is_close
       (flat_map (fun p => calls (mem_plane fb2 drm_fd (get4 (mem pe) p) p
                                    (0, 0) t)) ps))
  = List.length
      (filter is_mmap
         (flat_map (fun p => calls (mem_plane fb2 drm_fd (get4 (mem pe) p) p
                                      (0, 0) t)) ps)).
Proof.
  induction ps as [|p ps IH]; [reflexivity|].
  cbn [flat_map]. rewrite !filter_app, !length_app, IH. f_equal.
  rewrite mem_plane_eq. cbv zeta.
  destruct (get4 (handles fb2) p =? 0); [reflexivity|].
  destruct (export_ret (get4 (mem pe) p) <? 0); [reflexivity|].
  destruct (map_errno (get4 (mem pe) p)); reflexivity.
Qed.

(** X4.  [save_png] keeps no descriptor: on every path the descriptor table
    is the same after the call as before it, and each exported descriptor
    that it tries to map, whether the mapping succeeds or not, is closed
    once. *)
Theorem save_png_keeps_no_descriptor (fb2 : drmModeFB2) (drm_fd : Z)
    (png_fn : string) (plane : Z) (pe : plane_env) (t : fdtable) :
  table (save_png fb2 drm_fd png_fn plane pe t) = t /\
  List.length (filter is_close
                 (calls (save_png fb2 drm_fd png_fn plane pe t)))
  = List.length (filter is_mmap
                   (calls (save_png fb2 drm_fd png_fn plane pe t))).
Proof.
  split; [apply save_png_table|].
  rewrite save_png_eq.
  destruct (fits_filename png_fn plane); [|reflexivity].
  destruct (fopen_errno pe); [reflexivity|].
  cbn [calls snd filter is_close is_mmap].
  rewrite !filter_app, !length_app. cbn [filter is_close is_mmap List.length].
  rewrite planes_closes. reflexivity.
Qed.

(** X5.  When the export of a present memory plane fails, the plane is
    skipped: the export is the only call made for it, nothing is mapped,
    written or closed, and [ret] and [prime_fd] keep their values. *)
Theorem export_failure_skips_the_plane (fb2 : drmModeFB2) (drm_fd : Z)
    (e : mem_env) (p ret0 fd0 : Z) (t : fdtable)
    (Hpresent : get4 (handles fb2) p <> 0) (Hexport : export_ret e < 0) :
  mem_plane fb2 drm_fd e p (ret0, fd0) t
  = ((ret0, fd0), t,
     [PrimeHandleToFD drm_fd (get4 (handles fb2) p) (export_ret e)]).
Proof.
  rewrite mem_plane_eq. cbv zeta.
  apply Z.eqb_neq in Hpresent. apply Z.ltb_lt in Hexport.
  rewrite Hpresent, Hexport. reflexivity.
Qed.

Lemma export_failure_skips_the_plane_witness :
  mem_plane Scenario.fb2_single 4 Scenario.mem_export_fails 0 (0, 0) stdio
  = ((0, 0), stdio, [PrimeHandleToFD 4 7 (-1)]).
Proof.
  apply (export_failure_skips_the_plane Scenario.fb2_single 4
           Scenario.mem_export_fails 0 0 0 stdio).
  - discriminate.
  - reflexivity.
Defined.

(** X6.  When the output file cannot be opened, [save_png] prints its
    message and returns the negated [errno] at once: no memory plane is
    exported, mapped or written. *)
Theorem fopen_failure_returns_at_once (fb2 : drmModeFB2) (drm_fd : Z)
    (png_fn : string) (plane : Z) (pe : plane_env) (t : fdtable)
    (errno : positive)
    (Hfits : fits_filename png_fn plane = true)
    (Hopen : fopen_errno pe = Some errno) :
  save_png fb2 drm_fd png_fn plane pe t
  = (Some (- Z.pos errno), t,
     [Fopen (output_name png_fn plane) false;
      Stderr "Failed to open output file"]).
Proof. rewrite save_png_eq, Hfits, Hopen. reflexivity. Qed.

Lemma fopen_failure_returns_at_once_witness :
  save_png Scenario.fb2_single 4 "shot" 0
    (mk_plane 31 (Some (5, 6)) (Some Scenario.fb2_single) (Some 13%positive)
       0 Scenario.all_ok) stdio
  = (Some (- 13), stdio,
     [Fopen (output_name "shot" 0) false;
      Stderr "Failed to open output file"]).
Proof.
  apply (fopen_failure_returns_at_once Scenario.fb2_single 4 "shot" 0
           (mk_plane 31 (Some (5, 6)) (Some Scenario.fb2_single)
              (Some 13%positive) 0 Scenario.all_ok) stdio 13).
  - reflexivity.
  - reflexivity.
Defined.

(** X7.  When nothing fails in [save_png], it returns the value its
    variable [ret] happened to start with: with a file that is opened and
    no mapping that fails, the result is that value, so a negative one
    makes [main] report a failure that did not happen. *)
Theorem save_png_returns_unset_ret (fb2 : drmModeFB2) (drm_fd : Z)
    (png_fn : string) (plane : Z) (pe : plane_env) (t : fdtable)
    (Hfits : fits_filename png_fn plane = true)
    (Hopen : fopen_errno pe = None)
    (Hmaps : map_fails fb2 pe = false) :
  value (save_png fb2 drm_fd png_fn plane pe t)
  = Some (ret_indeterminate pe).
Proof.
  rewrite save_png_value, Hfits. unfold save_png_result. rewrite Hopen.
  rewrite ret_after_clean; [reflexivity | exact Hmaps].
Qed.

Lemma save_png_returns_unset_ret_witness :
  value (save_png Scenario.fb2_single 4 "shot" 0
           (mk_plane 31 (Some (5, 6)) (Some Scenario.fb2_single) None (-5)
              Scenario.all_ok) stdio)
  = Some (-5).
Proof.
  apply (save_png_returns_unset_ret Scenario.fb2_single 4 "shot" 0
           (mk_plane 31 (Some (5, 6)) (Some Scenario.fb2_single) None (-5)
              Scenario.all_ok) stdio).
  - reflexivity.
  - reflexivity.
  - reflexivity.
Defined.

(** X8.  A prefix of 58 characters or more does not fit: the name printed
    into [filename] has at least 64 characters, and [save_png] writes past
    the end of the array before it makes any call. *)
Theorem long_prefix_overruns_filename (fb2 : drmModeFB2) (drm_fd : Z)
    (png_fn : string) (plane : Z) (pe : plane_env) (t : fdtable)
    (Hlong : (58 <= String.length png_fn)%nat) :
  save_png fb2 drm_fd png_fn plane pe t = (None, t, []).
Proof.
  assert (Hlen : forall a c : string,
             String.length (a ++ c)%string
             = (String.length a + String.length c)%nat).
  { intros a c. induction a as [|x a IH]; cbn; [reflexivity|].
    rewrite IH. reflexivity. }
  assert (Hdigits : (1 <= String.length (decimal plane))%nat).
  { unfold decimal.
    destruct (Z.to_N (u32 plane)) as [|q]; [cbn; lia|].
    change (N.to_uint (N.pos q)) with (Pos.to_uint q).
    pose proof (DecimalPos.Unsigned.to_uint_nonnil q) as Hnil.
    destruct (Pos.to_uint q); [contradiction | | | | | | | | | |];
      cbn [NilEmpty.string_of_uint String.length]; lia. }
  rewrite save_png_eq. unfold fits_filename, output_name, filename_size.
  rewrite !Hlen.
  replace (Nat.ltb _ 64) with false; [reflexivity|].
  symmetry. apply Nat.ltb_ge. cbn [String.length]. lia.
Qed.

Lemma long_prefix_overruns_filename_witness :
  save_png Scenario.fb2_single 4
    "0123456789012345678901234567890123456789012345678901234567" 0
    (Scenario.plane_ok 31) stdio
  = (None, stdio, []).
Proof.
  apply (long_prefix_overruns_filename Scenario.fb2_single 4
           "0123456789012345678901234567890123456789012345678901234567" 0
           (Scenario.plane_ok 31) stdio).
  vm_compute. auto 70.
Defined.

(** ** Device locator and driver *)

(** X9.  Without an argument, [main] prints its usage line and returns
    [EXIT_FAILURE] at once: it opens no device and makes no other call. *)
Theorem usage_error_touches_nothing (w : world) (Hargc : argc w < 2) :
  run w = (Exit EXIT_FAILURE, stdio, [Printf "Usage: kmsgrab <output.png>"]).
Proof.
  unfold run, main. replace (argc w <? 2) with true by lia. reflexivity.
Qed.

Lemma usage_error_touches_nothing_witness :
  run (mk_world 1 "" [mk_card true 0 1] true 0 0 (Some []) (-1) 0)
  = (Exit EXIT_FAILURE, stdio, [Printf "Usage: kmsgrab <output.png>"]).
Proof.
  apply (usage_error_touches_nothing
           (mk_world 1 "" [mk_card true 0 1] true 0 0 (Some []) (-1) 0)).
  reflexivity.
Defined.

(** X10.  The probe loop gives up at the first node that cannot be opened:
    it prints its message, and no node after that one is tried, even if one
    of them has the capability. *)
Theorem probe_stops_at_unopenable_node (c : card_env) (cs : list card_env)
    (card : Z) (t : fdtable) (Hclosed : openable c = false) :
  probe (c :: cs) card t
  = (None, t, [Open (card_path card) (-1); open_failed]).
Proof. rewrite probe_cons. cbv zeta. rewrite Hclosed. reflexivity. Qed.

Lemma probe_stops_at_unopenable_node_witness :
  probe [mk_card false 0 0; mk_card true 0 1] 0 stdio
  = (None, stdio, [Open (card_path 0) (-1); open_failed]).
Proof.
  apply (probe_stops_at_unopenable_node (mk_card false 0 0)
           [mk_card true 0 1] 0 stdio).
  reflexivity.
Defined.

(** X11.  When the probe loop finds no node, every descriptor it opened has
    been closed again: the descriptor table is as it was before. *)
Theorem failed_probe_leaves_no_descriptor (cs : list card_env) (card : Z)
    (t : fdtable) (Hnone : value (probe cs card t) = None) :
  table (probe cs card t) = t /\ probe_finds cs = false.
Proof.
  pose proof (probe_value cs card t) as H. rewrite Hnone in H.
  destruct H as [H1 H2]. auto.
Qed.

Lemma failed_probe_leaves_no_descriptor_witness :
  table (probe [mk_card true 0 0; mk_card true (-1) 1] 0 stdio) = stdio /\
  probe_finds [mk_card true 0 0; mk_card true (-1) 1] = false.
Proof.
  apply (failed_probe_leaves_no_descriptor
           [mk_card true 0 0; mk_card true (-1) 1] 0 stdio).
  reflexivity.
Defined.

(** X12.  When the second [open] of the accepted node fails, [main] returns
    [EXIT_FAILURE] through [out_return], where nothing is closed: the
    descriptor the probe loop opened on that node stays open. *)
Theorem failed_reopen_keeps_the_probe_descriptor (w : world) (t : fdtable)
    (Hfound : probe_finds (cards w) = true) (Hreopen : reopen_ok w = false) :
  value (locate w t) = None /\
  (exists buf, table (locate w t) = (lowest_free t, Node buf) :: t) /\
  (2 <= argc w -> value (run w) = Exit EXIT_FAILURE).
Proof.
  rewrite locate_eq. cbv zeta.
  pose proof (probe_value (cards w) 0 t) as Hv.
  destruct (value (probe (cards w) 0 t)) as [[fd buf]|] eqn:Hp.
  2:{ destruct Hv as [Hv _]. rewrite Hfound in Hv. discriminate. }
  destruct (probe_found _ _ _ _ _ Hp) as [Hfd [Ht _]].
  rewrite Hreopen. cbn [value table fst snd].
  split; [reflexivity|]. split.
  - exists buf. rewrite Ht, Hfd. reflexivity.
  - intros Hargc. rewrite main_value. unfold main_status, device_opened.
    replace (argc w <? 2) with false by lia.
    rewrite Hfound, Hreopen. reflexivity.
Qed.

Lemma failed_reopen_keeps_the_probe_descriptor_witness :
  value (locate (mk_world 2 "shot" [mk_card true 0 1] false 0 0 (Some [])
                   (-1) 0) stdio) = None /\
  (exists buf,
     table (locate (mk_world 2 "shot" [mk_card true 0 1] false 0 0 (Some [])
                      (-1) 0) stdio)
     = (lowest_free stdio, Node buf) :: stdio) /\
  (2 <= argc (mk_world 2 "shot" [mk_card true 0 1] false 0 0 (Some [])
                (-1) 0) ->
   value (run (mk_world 2 "shot" [mk_card true 0 1] false 0 0 (Some [])
                 (-1) 0))
   = Exit EXIT_FAILURE).
Proof.
  apply (failed_reopen_keeps_the_probe_descriptor
           (mk_world 2 "shot" [mk_card true 0 1] false 0 0 (Some []) (-1) 0)
           stdio).
  - reflexivity.
  - reflexivity.
Defined.

(** X13.  What each label of [main] releases.  Entered at [out_return]
    nothing is released; at [out_close_fd] the device descriptor is closed;
    at [out_free_resources] the plane list is freed first.  [fb] and
    [prime_fd] are touched only from [out_free_fb] and
    [out_close_prime_fd] on, and there the run comes to the [free] of the
    pointer found in [fb] unless it is null. *)
Theorem labels_release (w : world) (drm_fd retval : Z) (t : fdtable) :
  leave w drm_fd out_return retval t = (Exit retval, t, []) /\
  leave w drm_fd out_close_fd retval t
  = (Exit retval, remove_fd drm_fd t, [Close drm_fd]) /\
  leave w drm_fd out_free_resources retval t
  = (Exit retval, remove_fd drm_fd t, [FreePlaneResources; Close drm_fd]) /\
  leave w drm_fd out_close_prime_fd retval t
  = (if fb_indeterminate w =? 0
     then (Exit retval,
           remove_fd drm_fd (remove_fd (prime_fd_indeterminate w) t),
           [Close (prime_fd_indeterminate w); FreeFB 0; FreePlaneResources;
            Close drm_fd])
     else (Fault, remove_fd (prime_fd_indeterminate w) t,
           [Close (prime_fd_indeterminate w);
            FreeFB (fb_indeterminate w)])).
Proof.
  repeat split.
  unfold leave, unwind, when. cbn [depth Nat.leb andb].
  destruct (fb_indeterminate w =? 0) eqn:Hfb; [|reflexivity].
  apply Z.eqb_eq in Hfb. rewrite Hfb. reflexivity.
Qed.

(** X14.  A run that returns from [main] returns [EXIT_SUCCESS] or
    [EXIT_FAILURE], never another status. *)
Theorem exit_status_is_0_or_1 (w : world) :
  value (run w) = Exit EXIT_SUCCESS \/ value (run w) = Exit EXIT_FAILURE \/
  value (run w) = Fault.
Proof.
  rewrite main_value. unfold main_status, capture_status, leave_status.
  destruct (argc w <? 2); [auto|].
  destruct (device_opened w); [|auto].
  destruct (negb (atomic_ret w =? 0)); [auto|].
  destruct (negb (universal_ret w =? 0)); [auto|].
  destruct (plane_resources w) as [pls|]; [|auto].
  destruct (loop_verdict (argv1 w) 0 pls) as [|l| |]; auto;
    match goal with
    | |- context [if ?c then _ else _] => destruct c; auto
    end.
Qed.

(** X15.  The loop over the display planes keeps no descriptor: however it
    is left, the descriptor table is as it was when it was entered, and no
    device node is opened in it. *)
Theorem enumerate_keeps_no_descriptor (drm_fd : Z) (png_fn : string)
    (pls : list plane_env) (i : Z) (t : fdtable) :
  table (enumerate drm_fd png_fn pls i t) = t /\
  filter (fun e => match e with Open _ _ => true | _ => false end)
    (calls (enumerate drm_fd png_fn pls i t)) = [].
Proof.
  split; [apply enumerate_table|].
  revert i. induction pls as [|pe pls IH]; intros i; [reflexivity|].
  assert (Hsave : forall fb2,
             filter (fun e => match e with Open _ _ => true | _ => false end)
               (calls (save_png fb2 drm_fd png_fn i pe t)) = []).
  { intros fb2.
    pose proof (save_png_kinds fb2 drm_fd png_fn i pe t) as Hk.
    induction (calls (save_png fb2 drm_fd png_fn i pe t)) as [|e l IHl];
      [reflexivity|].
    cbn [forallb] in Hk. apply andb_true_iff in Hk. destruct Hk as [He Hl].
    cbn [filter]. destruct e; try discriminate; apply IHl; exact Hl. }
  rewrite enumerate_cons.
  destruct (plane_state pe) as [[fb_id crtc_id]|]; [|reflexivity].
  cbv zeta.
  destruct ((fb_id =? 0) || (crtc_id =? 0)); [apply IH|].
  destruct (fb2_result pe) as [fb2|]; [|reflexivity].
  destruct (negb (fits_filename png_fn i)); [reflexivity|].
  destruct (save_png_result fb2 pe <? 0); cbn [calls snd app filter];
    rewrite !filter_app, Hsave; [reflexivity | apply IH].
Qed.
